(** * co-share: the example stores and the store-link declarations

    A shallow embedding of [store-link.ts] (the link identifiers and the
    message tuple), of [examples/stores/request.ts] ([RequestStore]) and of
    [examples/stores/consistent.ts] ([ConsistentStore], [ContinousState],
    [applySmoothing], [limitAbs]).

    Handlers are written in a small state/exception/output monad: a handler
    reads and updates the fields of its store, may throw, and logs the calls
    it makes into the framework ([publishTo], [accept], [deny], timers).
    The classes [Clock] and [Universe] come from the package co-consistent
    and are taken as an interface. *)

From Stdlib Require Import ZArith QArith Qround Qabs Qreduction Lqa Lia.
From Stdlib Require Import Bool List String.
Import ListNotations.

Set Implicit Arguments.

(** ** JavaScript numbers *)

(** A JavaScript [number] is NaN, one of the two infinities, or a finite
    value.  Finite values are carried as reduced fractions and the
    arithmetic on them is exact: the rounding step of binary64, overflow to
    an infinity, underflow to zero and the sign of zero are not represented
    (a division by zero takes the zero as positive). *)
Module Number.

Inductive number : Type :=
| NaN
| Infinity (negative : bool)
| Finite (q : Q).

Definition fin (q : Q) : number := Finite (Qred q).

Definition ofZ (z : Z) : number := Finite (inject_Z z).

Definition Qnegative (q : Q) : bool := (Qnum q <? 0)%Z.
Definition Qzero (q : Q) : bool := (Qnum q =? 0)%Z.

Definition isFinite (a : number) : bool :=
  match a with Finite _ => true | _ => false end.

(** unary [-a] *)
Definition neg (a : number) : number :=
  match a with
  | NaN => NaN
  | Infinity s => Infinity (negb s)
  | Finite q => fin (- q)
  end.

(** [a + b] *)
Definition add (a b : number) : number :=
  match a, b with
  | NaN, _ | _, NaN => NaN
  | Infinity s, Infinity s' => if Bool.eqb s s' then Infinity s else NaN
  | Infinity s, Finite _ | Finite _, Infinity s => Infinity s
  | Finite x, Finite y => fin (x + y)
  end.

(** [a - b] *)
Definition sub (a b : number) : number := add a (neg b).

(** [a * b] *)
Definition mul (a b : number) : number :=
  match a, b with
  | NaN, _ | _, NaN => NaN
  | Infinity s, Infinity s' => Infinity (xorb s s')
  | Infinity s, Finite q | Finite q, Infinity s =>
      if Qzero q then NaN else Infinity (xorb s (Qnegative q))
  | Finite x, Finite y => fin (x * y)
  end.

(** [a / b] *)
Definition div (a b : number) : number :=
  match a, b with
  | NaN, _ | _, NaN => NaN
  | Infinity _, Infinity _ => NaN
  | Infinity s, Finite q => Infinity (xorb s (Qnegative q))
  | Finite _, Infinity _ => fin 0
  | Finite x, Finite y =>
      if Qzero y then (if Qzero x then NaN else Infinity (Qnegative x))
      else fin (x / y)
  end.

(** [Math.abs] *)
Definition abs (a : number) : number :=
  match a with
  | NaN => NaN
  | Infinity _ => Infinity false
  | Finite q => fin (Qabs q)
  end.

(** [Math.floor] *)
Definition floor (a : number) : number :=
  match a with
  | Finite q => ofZ (Qfloor q)
  | _ => a
  end.

(** The integer part of a fraction, rounded towards zero. *)
Definition Qtrunc (q : Q) : Z :=
  if Qnegative q then Qceiling q else Qfloor q.

(** [a % b]: the remainder has the sign of the dividend. *)
Definition rem (a b : number) : number :=
  match a, b with
  | Finite x, Finite y =>
      if Qzero y then NaN else fin (x - y * inject_Z (Qtrunc (x / y)))
  | Finite x, Infinity _ => a
  | _, _ => NaN
  end.

(** [a < b] *)
Definition lt (a b : number) : bool :=
  match a, b with
  | NaN, _ | _, NaN => false
  | Infinity s, Infinity s' => s && negb s'
  | Infinity s, Finite _ => s
  | Finite _, Infinity s => negb s
  | Finite x, Finite y => negb (Qle_bool y x)
  end.

(** [a > b] *)
Definition gt (a b : number) : bool := lt b a.

(** [a === b] on numbers *)
Definition strictEq (a b : number) : bool :=
  match a, b with
  | Infinity s, Infinity s' => Bool.eqb s s'
  | Finite x, Finite y => Qeq_bool x y
  | _, _ => false
  end.

(** [Math.max(a, b)] *)
Definition max (a b : number) : number :=
  match a, b with
  | NaN, _ | _, NaN => NaN
  | _, _ => if lt a b then b else a
  end.

(** [Math.min(a, b)] *)
Definition min (a b : number) : number :=
  match a, b with
  | NaN, _ | _, NaN => NaN
  | _, _ => if lt b a then b else a
  end.

(** [Number.MIN_SAFE_INTEGER], that is -(2^53 - 1). *)
Definition MIN_SAFE_INTEGER : number := ofZ (- (2 ^ 53 - 1)).

(** The closed interval from 0 to 1. *)
Definition inUnitInterval (a : number) : Prop :=
  match a with
  | Finite q => 0 <= q <= 1
  | _ => False
  end.

End Number.

Export Number.

Declare Scope number_scope.
Delimit Scope number_scope with num.
Bind Scope number_scope with number.
Infix "+" := add : number_scope.
Infix "-" := sub : number_scope.
Infix "*" := mul : number_scope.
Infix "/" := div : number_scope.
Infix "%%" := rem (at level 40, left associativity) : number_scope.
Notation "- a" := (neg a) : number_scope.

(** ** JavaScript values *)

(** The values that travel as parameters of a message. *)
Inductive any : Type :=
| JsUndefined
| JsNull
| JsBoolean (b : bool)
| JsNumber (n : number)
| JsString (s : string).

(** An optional parameter [x?: T] as the handler receives it: the test
    [x == null] holds for [undefined] and for [null]. *)
Inductive optional (T : Type) : Type :=
| Undefined
| Null
| Present (x : T).
Arguments Undefined {T}.
Arguments Null {T}.
Arguments Present {T} x.

Definition isNullish {T : Type} (x : optional T) : bool :=
  match x with Present _ => false | _ => true end.

(** An [Error] object, identified by its message. *)
Inductive JsError : Type :=
| Error (message : string).

(** ** store-link.ts *)

(** [export type StoreLinkId = string | number] *)
Inductive StoreLinkId : Type :=
| LinkIdString (s : string)
| LinkIdNumber (n : number).

(** Modelled from the spec: [ActionIdentifier] is imported from ./action,
    which is not among the sources; the spec describes it as a string- or
    number-valued name. *)
Inductive ActionIdentifier : Type :=
| ActionName (s : string)
| ActionNumber (n : number).

(** [export type StoreLinkMessage = [actionIdentifier: ActionIdentifier, ...params: Array<any>]] *)
Record StoreLinkMessage : Type := {
  actionIdentifier : ActionIdentifier;
  params : list any
}.

(** [export const RootStoreDefaultLinkId = Number.MIN_SAFE_INTEGER] *)
Definition RootStoreDefaultLinkId : number := MIN_SAFE_INTEGER.

(** The [Connection] of ./connection is the transport object behind a link;
    only its identity matters here. *)
Definition Connection : Type := nat.

(** [interface StoreLink]: the data of a link.  The back reference [store]
    is the store that owns the link; [publish] and [close] are behaviour,
    [publish] is given below as [StoreLink_publish]. *)
Record StoreLink : Type := {
  id : StoreLinkId;
  connection : Connection
}.

(** The elements of a JavaScript array that is used as a message tuple. *)
Definition identifierValue (i : ActionIdentifier) : any :=
  match i with
  | ActionName s => JsString s
  | ActionNumber n => JsNumber n
  end.

(** A message as the tuple it is: the identifier, then the parameters. *)
Definition tupleOfMessage (m : StoreLinkMessage) : list any :=
  identifierValue (actionIdentifier m) :: params m.

(** The tuples that have the type [StoreLinkMessage]: a first element that is
    an [ActionIdentifier], followed by any number of values. *)
Definition messageOfTuple (t : list any) : option StoreLinkMessage :=
  match t with
  | JsString s :: ps => Some {| actionIdentifier := ActionName s; params := ps |}
  | JsNumber n :: ps => Some {| actionIdentifier := ActionNumber n; params := ps |}
  | _ => None
  end.

(** Modelled from the spec: [publish(...message: StoreLinkMessage): void] is
    a method of the interface [StoreLink] and has no body in the sources.
    By the spec a message is the sole unit exchanged over a link: the call
    puts the tuple of its arguments, the identifier and then the parameters,
    on the connection of the link. *)
Definition StoreLink_publish (l : StoreLink) (message : StoreLinkMessage)
  : Connection * list any :=
  (connection l, tupleOfMessage message).

(** ** Decidable equality of links *)

Definition number_eqb (a b : number) : bool :=
  match a, b with
  | NaN, NaN => true
  | Infinity s, Infinity s' => Bool.eqb s s'
  | Finite x, Finite y => (Qnum x =? Qnum y)%Z && (Qden x =? Qden y)%positive
  | _, _ => false
  end.

Definition StoreLinkId_eqb (a b : StoreLinkId) : bool :=
  match a, b with
  | LinkIdString s, LinkIdString s' => String.eqb s s'
  | LinkIdNumber n, LinkIdNumber n' => number_eqb n n'
  | _, _ => false
  end.

(** Two link objects are the same object when they agree on id and
    connection. *)
Definition StoreLink_eqb (a b : StoreLink) : bool :=
  StoreLinkId_eqb (id a) (id b) && Nat.eqb (connection a) (connection b).

(** ** The calls a handler makes into the framework *)

(** The addressing target of [Action.publishTo], written in the sources as
    [{ to: "one", one }], [{ to: "all" }] and
    [{ to: "all-except-one", except }]. *)
Inductive PublishTarget : Type :=
| ToOne (one : StoreLink)
| ToAll
| ToAllExceptOne (except : StoreLink).

(** The first argument of a [publishTo] call as the call site writes it: an
    object literal with a [to] tag, or a link object. *)
Inductive PublishArg : Type :=
| ArgTarget (target : PublishTarget)
| ArgLink (link : StoreLink).

Definition isAddressingTarget (a : PublishArg) : bool :=
  match a with
  | ArgTarget _ => true
  | ArgLink _ => false
  end.

(** What is run later: the two callbacks of the sources both call
    [this.informTime()]. *)
Inductive Task : Type :=
| CallInformTime.

Inductive Effect : Type :=
| PublishTo (operation : ActionIdentifier) (arg : PublishArg) (message : list any)
| Accept (initialPayload : list any)
| Deny (reason : any)
| SetTimeout (task : Task)
| AfterWait (duration : number) (task : Task).

Definition isAccept (e : Effect) : bool :=
  match e with Accept _ => true | _ => false end.

Definition isDeny (e : Effect) : bool :=
  match e with Deny _ => true | _ => false end.

(** ** The handler monad *)

(** A run of a handler on a store [S]: it returns or throws, and either way
    leaves a store and the calls it made, oldest first. *)
Inductive Outcome (S A : Type) : Type :=
| Returns (a : A) (s : S) (out : list Effect)
| Throws (e : JsError) (s : S) (out : list Effect).
Arguments Returns {S A} a s out.
Arguments Throws {S A} e s out.

Definition M (S A : Type) : Type := S -> Outcome S A.

Definition ret {S A : Type} (a : A) : M S A := fun s => Returns a s [].

Definition bind {S A B : Type} (m : M S A) (k : A -> M S B) : M S B :=
  fun s =>
    match m s with
    | Returns a s1 out1 =>
        match k a s1 with
        | Returns b s2 out2 => Returns b s2 (out1 ++ out2)
        | Throws e s2 out2 => Throws e s2 (out1 ++ out2)
        end
    | Throws e s1 out1 => Throws e s1 out1
    end.

Definition get {S : Type} : M S S := fun s => Returns s s [].
Definition modify {S : Type} (f : S -> S) : M S unit := fun s => Returns tt (f s) [].
Definition emit {S : Type} (e : Effect) : M S unit := fun s => Returns tt s [e].
Definition throw {S A : Type} (e : JsError) : M S A := fun s => Throws e s [].

Declare Scope handler_scope.
Delimit Scope handler_scope with handler.
Notation "x <- m ;; k" := (bind m (fun x => k))
  (at level 61, m at next level, right associativity) : handler_scope.
Notation "m ;; k" := (bind m (fun _ => k))
  (at level 61, right associativity) : handler_scope.
Open Scope handler_scope.

Definition effects {S A : Type} (o : Outcome S A) : list Effect :=
  match o with Returns _ _ out | Throws _ _ out => out end.

Definition finalStore {S A : Type} (o : Outcome S A) : S :=
  match o with Returns _ s _ | Throws _ s _ => s end.

Definition returned {S A : Type} (o : Outcome S A) : option A :=
  match o with Returns a _ _ => Some a | Throws _ _ _ => None end.

Definition thrown {S A : Type} (o : Outcome S A) : option JsError :=
  match o with Returns _ _ _ => None | Throws e _ _ => Some e end.

(** The fields every store inherits from the class [Store]: its link to
    itself and the links of the peers that are subscribed. *)
Record Store : Type := {
  mainLink : StoreLink;
  linkSet : list StoreLink
}.

(** [action.publishTo(target, ...params)] as the handlers call it. *)
Definition Action_publishTo {S : Type} (identifier : string)
  (target : PublishTarget) (message : list any) : M S unit :=
  emit (PublishTo (ActionName identifier) (ArgTarget target) message).

(** ** The observables of rxjs that the Request handlers return *)

(** [NEVER] emits nothing and never completes; [of(v)], written [of_ v]
    here, emits [v] and completes; the third is the observable that
    [request.publishTo(link, ...params)] hands back, which carries the
    answer of the peer behind [link]. *)
Inductive Observable : Type :=
| NEVER
| of_ (value : any)
| AnswerOf (request : ActionIdentifier) (link : StoreLink) (message : list any).

(** [request.publishTo(link, ...params)] as the handlers call it: the first
    argument is a link. *)
Definition Request_publishTo {S : Type} (identifier : string)
  (link : StoreLink) (message : list any) : M S Observable :=
  emit (PublishTo (ActionName identifier) (ArgLink link) message) ;;
  ret (AnswerOf (ActionName identifier) link message).

(** ** examples/stores/request.ts *)

Module RequestStore.

(** [class RequestStore extends Store] declares no field of its own. *)
Definition t : Type := Store.

Definition onUnlink (link : StoreLink) : M t unit := ret tt.

Definition onLink (link : StoreLink) : M t unit := ret tt.

(** [Subscriber.create(RequestStore, (connection, accept, deny) => accept())] *)
Definition subscriber (connection : Connection) : M t unit :=
  emit (Accept []).

(** [Request.create(this, "add", (origin, v1, v2) => ...)]; [random] is the
    value that [Math.random()] draws in this run. *)
Definition add (random : number) (origin : option StoreLink) (v1 v2 : number)
  : M t Observable :=
  match origin with
  | None =>
      this <- get ;;
      Request_publishTo "add" (mainLink this) [JsNumber v1; JsNumber v2]
  | Some _ =>
      ret (if gt random (fin (1 # 2)) then NEVER else of_ (JsNumber (v1 + v2)))
  end.

End RequestStore.

(** ** examples/stores/consistent.ts *)

(** [const velocity = 0.0001] *)
Definition velocity : number := fin (1 # 10000).

Module StateAction.

Inductive kind : Type := init | invert.

(** [type StateAction = { type: "init" | "invert"; id: number }] *)
Record t : Type := {
  type : kind;
  id : number
}.

End StateAction.

(** [type SmoothState = { value: number; velocity: number }] *)
Module SmoothState.
Record t : Type := {
  value : number;
  velocity : number
}.
End SmoothState.

(** [class ContinousState implements State<StateAction>] *)
Module ContinousState.

Record t : Type := {
  value : number;
  directionInverted : bool
}.

Definition isInit (action : option StateAction.t) : bool :=
  match action with
  | Some a => match StateAction.type a with StateAction.init => true | _ => false end
  | None => false
  end.

Definition isInvert (action : option StateAction.t) : bool :=
  match action with
  | Some a => match StateAction.type a with StateAction.invert => true | _ => false end
  | None => false
  end.

(** [update(base, deltaTime, action, prevDeltaTime, prevBase)]: the state
    [this] after the call. *)
Definition update (this : t) (base : option t) (deltaTime : number)
  (action : option StateAction.t) (prevDeltaTime : option number)
  (prevBase : option t) : t :=
  match base with
  | None => this
  | Some base =>
      if isInit action then this
      else if isInvert action
              && match prevBase with
                 | Some p => Bool.eqb (directionInverted base) (directionInverted p)
                 | None => false
                 end
              && match prevBase with
                 | Some p => strictEq (value base) (value p)
                 | None => false
                 end
              && match prevDeltaTime with
                 | Some d => strictEq d deltaTime
                 | None => false
                 end
      then this
      else
        {| value := (value base
                     + deltaTime * (if directionInverted base then - velocity else velocity))%num;
           directionInverted :=
             match action with
             | None => directionInverted base
             | Some _ => negb (directionInverted base)
             end |}
  end.

(** [copyFrom(ref)] *)
Definition copyFrom (this ref : t) : t :=
  {| value := value ref; directionInverted := directionInverted ref |}.

End ContinousState.

(** [function limitAbs(value, limit)] *)
Definition limitAbs (value limit : number) : number :=
  max (- limit)%num (min limit value).

(** [function applySmoothing(smoothState, smoothStateTime, realState, realStateTime)]:
    the smooth state after the call. *)
Definition applySmoothing (smoothState : SmoothState.t) (smoothStateTime : number)
  (realState : ContinousState.t) (realStateTime : number) : SmoothState.t :=
  let deltaTime := (realStateTime - smoothStateTime)%num in
  let velocityReal :=
    if ContinousState.directionInverted realState then (- velocity)%num else velocity in
  let valueReal := ContinousState.value realState in
  let valueSmoothed := SmoothState.value smoothState in
  let vd :=
    ((velocityReal + (fin (1 # 20) * (valueReal - valueSmoothed)) / deltaTime)
     / fin (21 # 20))%num in
  let velocity' :=
    (SmoothState.velocity smoothState
     + limitAbs (vd - SmoothState.velocity smoothState)
                (velocity * deltaTime * fin (1 # 10)))%num in
  {| SmoothState.value := (valueSmoothed + velocity' * deltaTime)%num;
     SmoothState.velocity := velocity' |}.

(** The classes [Clock] and [Universe] of the package co-consistent, as far
    as [ConsistentStore] uses them.  Every operation gives the object after
    the call; [wait] gives the clock at the moment the promise of
    [clock.wait(ms)] resolves.  The operations are taken to return, and
    [getCurrentTime], [history] and [applyStateAt] to leave the clock and
    the universe as they are ([applyStateAt] writes to the state it is
    handed). *)
Class CoConsistent : Type := {
  Clock : Type;
  Clock_new : number -> Clock;
  getCurrentTime : Clock -> number;
  change : Clock -> number -> number -> Clock;
  jump : Clock -> number -> Clock;
  wait : Clock -> number -> Clock;
  Universe : Type;
  HistoryEntry : Type;
  Universe_new :
    (unit -> ContinousState.t) -> (StateAction.t -> StateAction.t -> number) ->
    number -> Universe;
  history : Universe -> list HistoryEntry;
  insert :
    Universe -> StateAction.t -> number -> number -> option ContinousState.t -> Universe;
  applyStateAt :
    Universe -> ContinousState.t -> option HistoryEntry -> number -> ContinousState.t
}.

(** [xs[xs.length - 1]], which is [undefined] on an empty array. *)
Definition lastElement {A : Type} (xs : list A) : option A :=
  nth_error xs (List.length xs - 1).

Module ConsistentStore.

Section WithCoConsistent.

Context {co : CoConsistent}.

(** [smoothedRef: { state: SmoothState | undefined; time: number | undefined }] *)
Record SmoothedRef : Type := {
  state : option SmoothState.t;
  time : option number
}.

Record t : Type := {
  super : Store;
  onServer : bool;
  universe : Universe;
  clock : Clock;
  smoothedRef : SmoothedRef;
  realStateRef : ContinousState.t
}.

Definition setClock (c : Clock) (this : t) : t :=
  {| super := super this; onServer := onServer this; universe := universe this;
     clock := c; smoothedRef := smoothedRef this; realStateRef := realStateRef this |}.

Definition setUniverse (u : Universe) (this : t) : t :=
  {| super := super this; onServer := onServer this; universe := u;
     clock := clock this; smoothedRef := smoothedRef this; realStateRef := realStateRef this |}.

Definition setSmoothedRef (r : SmoothedRef) (this : t) : t :=
  {| super := super this; onServer := onServer this; universe := universe this;
     clock := clock this; smoothedRef := r; realStateRef := realStateRef this |}.

Definition setRealStateRef (r : ContinousState.t) (this : t) : t :=
  {| super := super this; onServer := onServer this; universe := universe this;
     clock := clock this; smoothedRef := smoothedRef this; realStateRef := r |}.

(** [constructor(onServer, time, value, directionInverted)]: the new store
    and the calls made; [base] is what [super()] sets up and [random] the
    draw of [Math.random()]. *)
Definition new (base : Store) (random : number) (onServer : bool)
  (time value : number) (directionInverted : bool) : t * list Effect :=
  let clock := Clock_new time in
  let universe :=
    Universe_new
      (fun _ => {| ContinousState.value := ofZ 0; ContinousState.directionInverted := false |})
      (fun a1 a2 => (StateAction.id a1 - StateAction.id a2)%num)
      (ofZ 2000) in
  let timers := if negb onServer then [SetTimeout CallInformTime] else [] in
  let universe :=
    insert universe
      {| StateAction.id := random; StateAction.type := StateAction.init |}
      time time
      (Some {| ContinousState.value := value;
               ContinousState.directionInverted := directionInverted |}) in
  ({| super := base; onServer := onServer; universe := universe; clock := clock;
      smoothedRef := {| state := None; time := None |};
      realStateRef := {| ContinousState.value := ofZ 0;
                         ContinousState.directionInverted := false |} |},
   timers).

(** [Subscriber.create(ConsistentStore, (connection, accept) => ...)] *)
Definition subscriber (connection : Connection) : M t unit :=
  this <- get ;;
  let time := getCurrentTime (clock this) in
  let entry := lastElement (history (universe this)) in
  modify (setRealStateRef (applyStateAt (universe this) (realStateRef this) entry time)) ;;
  this <- get ;;
  emit (Accept [JsNumber time;
                JsNumber (ContinousState.value (realStateRef this));
                JsBoolean (ContinousState.directionInverted (realStateRef this))]).

(** [Action.create(this, "changeTime", (origin, by) => ...)] *)
Definition changeTime (origin : option StoreLink) (by_ : number) : M t unit :=
  this <- get ;;
  (if onServer this
   then throw (Error "should not warp time on the server")
   else ret tt) ;;
  modify (fun this => setClock (change (clock this) by_ (fin (1 # 2))) this) ;;
  emit (AfterWait (max (ofZ 500) (by_ * ofZ 2)%num) CallInformTime).

(** [Action.create(this, "informTime", (origin, currentTime?) => ...)] *)
Definition informTime (origin : option StoreLink) (currentTime : optional number)
  : M t unit :=
  this <- get ;;
  match origin with
  | None =>
      Action_publishTo "informTime" (ToOne (mainLink (super this)))
        [JsNumber (getCurrentTime (clock this))]
  | Some origin =>
      match currentTime with
      | Present currentTime =>
          if onServer this
          then Action_publishTo "changeTime" (ToOne origin)
                 [JsNumber (getCurrentTime (clock this) - currentTime)%num]
          else ret tt
      | _ => ret tt
      end
  end.

(** [Action.create(this, "invert", async (origin, stateTime?, id?) => ...)];
    [random] is the draw of [Math.random()].  The first step yields the
    values of [currentTime], [stateTime] and [id] with which the handler goes
    on, or nothing where it returns early; the handler is taken as one
    step, so that after [await this.clock.wait(jumpBy)] the store is as it
    was left, with the clock as [wait] gives it. *)
Definition invert (random : number) (origin : option StoreLink)
  (stateTime id : optional number) : M t unit :=
  this <- get ;;
  let currentTime := getCurrentTime (clock this) in
  proceed <-
    match origin with
    | None => ret (Some (currentTime, currentTime, random))
    | Some _ =>
        match stateTime, id with
        | Present stateTime, Present id =>
            if gt stateTime currentTime then
              let jumpBy := (stateTime - currentTime)%num in
              modify (fun this =>
                        setClock (if onServer this
                                  then wait (clock this) jumpBy
                                  else jump (clock this) jumpBy) this) ;;
              this <- get ;;
              ret (Some (getCurrentTime (clock this), stateTime, id))
            else ret (Some (currentTime, stateTime, id))
        | _, _ => ret None
        end
    end ;;
  match proceed with
  | None => ret tt
  | Some (currentTime, stateTime, id) =>
      this <- get ;;
      match state (smoothedRef this), time (smoothedRef this) with
      | Some smooth, Some smoothTime =>
          let deltaTime := (currentTime - smoothTime)%num in
          modify (setSmoothedRef
                    {| state :=
                         Some {| SmoothState.value :=
                                   (SmoothState.value smooth
                                    + SmoothState.velocity smooth * deltaTime)%num;
                                 SmoothState.velocity :=
                                   (- SmoothState.velocity smooth)%num |};
                       time := Some currentTime |})
      | _, _ => ret tt
      end ;;
      modify (fun this =>
                setUniverse
                  (insert (universe this)
                     {| StateAction.type := StateAction.invert; StateAction.id := id |}
                     currentTime stateTime None) this) ;;
      Action_publishTo "invert"
        match origin with
        | None => ToAll
        | Some origin => ToAllExceptOne origin
        end
        [JsNumber stateTime; JsNumber id]
  end.

(** [getCurrentValue(smoothed: boolean): number] *)
Definition getCurrentValue (smoothed : bool) : M t number :=
  this <- get ;;
  let realStateTime := getCurrentTime (clock this) in
  let entry := lastElement (history (universe this)) in
  modify (setRealStateRef
            (applyStateAt (universe this) (realStateRef this) entry realStateTime)) ;;
  this <- get ;;
  value <-
    match state (smoothedRef this), time (smoothedRef this) with
    | Some smooth, Some smoothTime =>
        let smooth' := applySmoothing smooth smoothTime (realStateRef this) realStateTime in
        modify (setSmoothedRef {| state := Some smooth'; time := Some smoothTime |}) ;;
        ret (if smoothed
             then SmoothState.value smooth'
             else ContinousState.value (realStateRef this))
    | _, _ =>
        modify (setSmoothedRef
                  {| state :=
                       Some {| SmoothState.value := ContinousState.value (realStateRef this);
                               SmoothState.velocity :=
                                 if ContinousState.directionInverted (realStateRef this)
                                 then (- velocity)%num else velocity |};
                     time := time (smoothedRef this) |}) ;;
        ret (ContinousState.value (realStateRef this))
    end ;;
  modify (fun this =>
            setSmoothedRef {| state := state (smoothedRef this);
                              time := Some realStateTime |} this) ;;
  let abs := abs value in
  let backwards := strictEq (floor abs %% ofZ 2)%num (ofZ 1) in
  ret (if backwards then (ofZ 1 - (abs %% ofZ 1))%num else (abs %% ofZ 1)%num).

(** The variable [value] of [getCurrentValue] as its last three lines find
    it: the real or the smoothed value of the ball before it is folded. *)
Definition selectedValue (smoothed : bool) (this : t) : number :=
  let realStateTime := getCurrentTime (clock this) in
  let real :=
    applyStateAt (universe this) (realStateRef this)
      (lastElement (history (universe this))) realStateTime in
  match state (smoothedRef this), time (smoothedRef this) with
  | Some smooth, Some smoothTime =>
      if smoothed
      then SmoothState.value (applySmoothing smooth smoothTime real realStateTime)
      else ContinousState.value real
  | _, _ => ContinousState.value real
  end.

Definition onUnlink (link : StoreLink) : M t unit := ret tt.

Definition onLink (link : StoreLink) : M t unit := ret tt.

End WithCoConsistent.

End ConsistentStore.

(** ** The framework around the handlers *)

(** Modelled from the spec: [Action.publishTo] is declared in ./action,
    which the sources do not include.  The target is resolved against the
    link set of the store at the time of the call: [all] reaches every link,
    [all-except-one] every link but the excepted one, and [one] the link it
    names if that link is still in the set. *)
Definition resolveTarget (links : list StoreLink) (target : PublishTarget)
  : list StoreLink :=
  match target with
  | ToOne one => filter (StoreLink_eqb one) links
  | ToAll => links
  | ToAllExceptOne except => filter (fun l => negb (StoreLink_eqb except l)) links
  end.

(** The links a logged call reaches. *)
Definition recipients (links : list StoreLink) (e : Effect) : list StoreLink :=
  match e with
  | PublishTo _ (ArgTarget target) _ => resolveTarget links target
  | PublishTo _ (ArgLink link) _ => [link]
  | _ => []
  end.

(** Modelled from the spec: [Action.create] is declared in ./action, which
    the sources do not include.  Calling the action directly runs the
    handler with [origin = undefined], and a failure of the handler is not
    caught. *)
Definition Action_call {S P : Type} (handler : option StoreLink -> P -> M S unit)
  (args : P) : M S unit :=
  handler None args.

(** Modelled from the spec: what a subscriber of an observable is told, in
    order: emissions, then a completion or a failure, or neither. *)
Inductive Notification : Type :=
| Next (value : any)
| Complete
| Failed (e : JsError).

(** Modelled from the spec: subscribing to the observables above; [peer]
    gives the notifications that arrive for a request sent over a link. *)
Definition subscribe (peer : ActionIdentifier -> StoreLink -> list any -> list Notification)
  (o : Observable) : list Notification :=
  match o with
  | NEVER => []
  | of_ v => [Next v; Complete]
  | AnswerOf request link message => peer request link message
  end.

(** Modelled from the spec: [Request.create] is declared in ./request, which
    the sources do not include.  For a request that arrives on link [L]
    the handler runs with [origin = L]; each emission of the observable it
    returns is published back to [L] alone as a result message, a completion
    as a completion marker and a failure as an error marker. *)
Definition Request_receive {S P : Type}
  (peer : ActionIdentifier -> StoreLink -> list any -> list Notification)
  (handler : option StoreLink -> P -> M S Observable)
  (L : StoreLink) (args : P) (store : S) : list (StoreLink * Notification) :=
  match handler (Some L) args store with
  | Returns o _ _ => map (fun n => (L, n)) (subscribe peer o)
  | Throws e _ _ => [(L, Failed e)]
  end.

(** Modelled from the spec: the handler [add(origin, a, b) => of(a + b)] of
    the spec's testable properties. *)
Definition addOf {S : Type} (origin : option StoreLink) (ab : number * number)
  : M S Observable :=
  ret (of_ (JsNumber (fst ab + snd ab))).

(** Modelled from the spec: the dispatch table of a store whose one
    operation is the request ["add"]: the identifier of an inbound tuple
    selects the handler and the two numbers that follow are its parameters;
    a tuple that matches no operation is dropped. *)
Definition dispatchAdd {S : Type}
  (peer : ActionIdentifier -> StoreLink -> list any -> list Notification)
  (handler : option StoreLink -> number * number -> M S Observable)
  (L : StoreLink) (tuple : list any) (store : S) : list (StoreLink * Notification) :=
  match messageOfTuple tuple with
  | Some {| actionIdentifier := ActionName "add";
            params := [JsNumber a; JsNumber b] |} =>
      Request_receive peer handler L (a, b) store
  | _ => []
  end.

(** Modelled from the spec: one subscription attempt,
    [Pending -> {Accepted, Denied}]; both outcomes are terminal and are not
    left again. *)
Inductive Attempt : Type :=
| Pending
| Accepted (initialPayload : list any)
| Denied (reason : any).

Definition attemptStep (a : Attempt) (e : Effect) : Attempt :=
  match a, e with
  | Pending, Accept payload => Accepted payload
  | Pending, Deny reason => Denied reason
  | _, _ => a
  end.

Definition runAttempt (calls : list Effect) : Attempt :=
  fold_left attemptStep calls Pending.

(** ** An instance of co-consistent *)

(** A small instance of the interface, on which the handlers can be run: the
    clock is the time it shows and moves only when it is told to, the
    universe is the list of its entries and extrapolates from the entry it
    is given with [ContinousState.update]. *)
Module Plain.

Record Entry : Type := {
  action : StateAction.t;
  currentTime : number;
  stateTime : number;
  entryState : ContinousState.t
}.

Definition insertEntry (u : list Entry) (a : StateAction.t) (currentTime stateTime : number)
  (s : option ContinousState.t) : list Entry :=
  let s :=
    match s, lastElement u with
    | Some s, _ => s
    | None, Some e =>
        ContinousState.update (entryState e) (Some (entryState e))
          (Number.sub stateTime (Plain.stateTime e)) (Some a) None None
    | None, None =>
        {| ContinousState.value := ofZ 0; ContinousState.directionInverted := false |}
    end in
  u ++ [{| action := a; currentTime := currentTime; stateTime := stateTime;
           entryState := s |}].

Definition extrapolate (u : list Entry) (ref : ContinousState.t) (entry : option Entry)
  (time : number) : ContinousState.t :=
  match entry with
  | Some e =>
      ContinousState.update ref (Some (entryState e))
        (Number.sub time (stateTime e)) None None None
  | None => ref
  end.

#[export] Instance plain : CoConsistent := {|
  Clock := number;
  Clock_new := fun time => time;
  getCurrentTime := fun c => c;
  change := fun c by_ _ => Number.add c by_;
  jump := fun c by_ => Number.add c by_;
  wait := fun c ms => Number.add c ms;
  Universe := list Entry;
  HistoryEntry := Entry;
  Universe_new := fun _ _ _ => [];
  history := fun u => u;
  insert := insertEntry;
  applyStateAt := extrapolate
|}.

End Plain.

(** ** Checks on the log of a run *)

(** Every [publishTo] call of the log is addressed with one of the three
    tagged targets. *)
Definition publishesTargetsOnly (out : list Effect) : bool :=
  forallb (fun e =>
             match e with
             | PublishTo _ arg _ => isAddressingTarget arg
             | _ => true
             end) out.

(** ** Stores and links on which the handlers are run *)

Module Example.

Definition self : StoreLink :=
  {| id := LinkIdNumber RootStoreDefaultLinkId; connection := 0%nat |}.

Definition L : StoreLink :=
  {| id := LinkIdNumber (ofZ 1); connection := 1%nat |}.

Definition L' : StoreLink :=
  {| id := LinkIdString "peer"; connection := 2%nat |}.

Definition store : Store :=
  {| mainLink := self; linkSet := [L; L'] |}.

(** [new ConsistentStore(true, 1000, 0.5, false)], with 1/3 drawn for the
    id of the first entry. *)
Definition server : ConsistentStore.t (co := Plain.plain) :=
  fst (ConsistentStore.new store (fin (1 # 3)) true (ofZ 1000) (fin (1 # 2)) false).

(** The same store after [getCurrentValue(true)] was called once. *)
Definition serverAfterRead : ConsistentStore.t (co := Plain.plain) :=
  finalStore (ConsistentStore.getCurrentValue true server).

End Example.

(** ** Comparisons used in the statements *)

(** [a <= b] on numbers; like [<], it is false as soon as one side is
    NaN. *)
Definition lessEq (a b : number) : bool :=
  match a, b with
  | NaN, _ | _, NaN => false
  | Infinity s, Infinity s' => s || negb s'
  | Infinity s, Finite _ => s
  | Finite _, Infinity s => negb s
  | Finite x, Finite y => Qle_bool x y
  end.

(** Modelled from the spec: [publishTo] of an Action and of a Request are
    declared in ./action and ./request, which the sources do not include.
    For every link that the call reaches, [link.publish(identifier,
    ...params)] is called with the identifier of the operation and the
    parameters that [publishTo] was given. *)
Definition published (links : list StoreLink) (e : Effect)
  : list (Connection * list any) :=
  match e with
  | PublishTo operation _ message =>
      map (fun l =>
             StoreLink_publish l
               {| actionIdentifier := operation; params := message |})
          (recipients links e)
  | _ => []
  end.

(** Everything that the calls of a log put on the connections of the
    links, in the order of the calls. *)
Definition exchanged (links : list StoreLink) (out : list Effect)
  : list (Connection * list any) :=
  flat_map (published links) out.

(** The test of lines 152 to 154 of [update], by which an ["invert"] is
    skipped: the base state and the time difference are those of the
    previous run. *)
Definition repeatsPreviousRun (base : ContinousState.t) (deltaTime : number)
  (prevDeltaTime : option number) (prevBase : option ContinousState.t) : bool :=
  match prevBase with
  | Some p =>
      Bool.eqb (ContinousState.directionInverted base)
        (ContinousState.directionInverted p)
  | None => false
  end
  && match prevBase with
     | Some p => strictEq (ContinousState.value base) (ContinousState.value p)
     | None => false
     end
  && match prevDeltaTime with
     | Some d => strictEq d deltaTime
     | None => false
     end.

(** The state that [universe.applyStateAt(this.realStateRef, entry, time)]
    leaves in [realStateRef], for [entry] the last entry of the history and
    [time] the time of the clock: the first three lines of both the
    subscriber and [getCurrentValue]. *)
Definition realStateNow {co : CoConsistent} (this : ConsistentStore.t)
  : ContinousState.t :=
  applyStateAt (ConsistentStore.universe this) (ConsistentStore.realStateRef this)
    (lastElement (history (ConsistentStore.universe this)))
    (getCurrentTime (ConsistentStore.clock this)).

(** A client store for the runs: [new ConsistentStore(false, 900, 0.5,
    false)], with 2/3 drawn for the id of the first entry. *)
Module Scene.

Definition client : ConsistentStore.t (co := Plain.plain) :=
  fst (ConsistentStore.new Example.store (fin (2 # 3)) false (ofZ 900) (fin (1 # 2))
         false).

(** The client after [getCurrentValue(true)] was called once. *)
Definition clientAfterRead : ConsistentStore.t (co := Plain.plain) :=
  finalStore (ConsistentStore.getCurrentValue true client).

End Scene.

(** * Properties *)

(** ** Runs on concrete inputs *)

Example zero_by_zero : (ofZ 0 / ofZ 0)%num = NaN.
Proof. reflexivity. Qed.

Example one_by_zero : (ofZ 1 / ofZ 0)%num = Infinity false.
Proof. reflexivity. Qed.

Example infinity_rem_one : (Infinity false %% ofZ 1)%num = NaN.
Proof. reflexivity. Qed.

Example rem_keeps_sign : (fin (-7 # 2) %% ofZ 2)%num = fin (-3 # 2).
Proof. reflexivity. Qed.

Example max_with_NaN : max (ofZ 500) NaN = NaN.
Proof. reflexivity. Qed.

Example limitAbs_clamps : limitAbs (ofZ 3) (fin (1 # 2)) = fin (1 # 2).
Proof. reflexivity. Qed.

Example add_from_link_low_draw :
  RequestStore.add (fin (1 # 4)) (Some Example.L) (ofZ 2) (ofZ 3) Example.store
  = Returns (of_ (JsNumber (ofZ 5))) Example.store [].
Proof. reflexivity. Qed.

Example add_from_link_high_draw :
  RequestStore.add (fin (3 # 4)) (Some Example.L) (ofZ 2) (ofZ 3) Example.store
  = Returns NEVER Example.store [].
Proof. reflexivity. Qed.

Example informTime_local :
  effects (ConsistentStore.informTime None Undefined Example.server)
  = [PublishTo (ActionName "informTime") (ArgTarget (ToOne Example.self))
       [JsNumber (ofZ 1000)]].
Proof. reflexivity. Qed.

Example informTime_from_link :
  effects (ConsistentStore.informTime (Some Example.L) (Present (ofZ 400))
             Example.server)
  = [PublishTo (ActionName "changeTime") (ArgTarget (ToOne Example.L))
       [JsNumber (ofZ 600)]].
Proof. reflexivity. Qed.

Example invert_from_link_ahead_of_clock :
  effects (ConsistentStore.invert (fin (1 # 3)) (Some Example.L)
             (Present (ofZ 1200)) (Present (ofZ 7)) Example.server)
  = [PublishTo (ActionName "invert") (ArgTarget (ToAllExceptOne Example.L))
       [JsNumber (ofZ 1200); JsNumber (ofZ 7)]]
  /\ ConsistentStore.clock
       (finalStore (ConsistentStore.invert (fin (1 # 3)) (Some Example.L)
                      (Present (ofZ 1200)) (Present (ofZ 7)) Example.server))
     = ofZ 1200.
Proof. split; reflexivity. Qed.

Example resolve_all_except_one :
  resolveTarget (linkSet Example.store) (ToAllExceptOne Example.L) = [Example.L'].
Proof. reflexivity. Qed.

Example fold_of_a_backwards_value :
  returned
    (ConsistentStore.getCurrentValue false
       (fst (ConsistentStore.new (co := Plain.plain) Example.store (fin (1 # 3)) true
               (ofZ 1000) (fin (5 # 4)) false)))
  = Some (Finite (3 # 4)).
Proof. reflexivity. Qed.

(** ** Numbers *)

Lemma Qnegative_false (q : Q) : Qnegative q = false <-> 0 <= q.
Proof.
  unfold Qnegative, Qle. simpl. rewrite Z.ltb_ge, Z.mul_1_r. reflexivity.
Qed.

Lemma Qtrunc_nonneg (q : Q) : 0 <= q -> Qtrunc q = Qfloor q.
Proof.
  intros H. unfold Qtrunc. apply Qnegative_false in H. now rewrite H.
Qed.

(** The fractional part [q - floor q] lies in [0, 1). *)
Lemma Qfrac_bounds (q : Q) : 0 <= q - inject_Z (Qfloor q) < 1.
Proof.
  pose proof (Qfloor_le q) as Hle.
  pose proof (Qlt_floor q) as Hlt.
  rewrite inject_Z_plus in Hlt. change (inject_Z 1) with 1 in Hlt.
  split; lra.
Qed.

(** [a % 1] for a finite [a >= 0] is the fractional part of [a]. *)
Lemma rem_one_nonneg (a : Q) :
  0 <= a ->
  exists f, (Finite a %% ofZ 1)%num = Finite f /\ 0 <= f < 1
            /\ f == a - inject_Z (Qfloor a).
Proof.
  intros Ha. unfold rem, ofZ, fin.
  replace (Qzero (inject_Z 1)) with false by reflexivity.
  eexists; split; [reflexivity|].
  assert (Hdiv : a / inject_Z 1 == a) by (change (inject_Z 1) with 1; field).
  assert (Hnn : 0 <= a / inject_Z 1) by (rewrite Hdiv; exact Ha).
  rewrite (Qtrunc_nonneg Hnn), Hdiv, Qred_correct.
  pose proof (Qfrac_bounds a) as Hb.
  change (inject_Z 1) with 1.
  split; [split; lra | lra].
Qed.

Lemma abs_finite (q : Q) :
  exists a, abs (Finite q) = Finite a /\ 0 <= a.
Proof.
  exists (Qred (Qabs q)). split; [reflexivity|].
  rewrite Qred_correct. apply Qabs_nonneg.
Qed.

(** [1 - f] for [f] in [0, 1) is a finite number in (0, 1]. *)
Lemma one_minus_fraction (f : Q) :
  0 <= f < 1 ->
  exists g, (ofZ 1 - Finite f)%num = Finite g /\ 0 < g <= 1.
Proof.
  intros Hf. unfold sub, neg, add, ofZ, fin.
  eexists; split; [reflexivity|].
  rewrite !Qred_correct. change (inject_Z 1) with 1. split; lra.
Qed.

Lemma Qzero_true (q : Q) : Qzero q = true <-> q == 0.
Proof.
  unfold Qzero, Qeq. simpl. rewrite Z.eqb_eq, Z.mul_1_r. reflexivity.
Qed.

Lemma Qzero_Qred (q : Q) : q == 0 -> Qzero (Qred q) = true.
Proof.
  intros H. apply Qzero_true. now rewrite Qred_correct.
Qed.

(** [a - a] is a zero for a finite [a]. *)
Lemma sub_self (a : Q) : exists z, (Finite a - Finite a)%num = Finite z /\ Qzero z = true.
Proof.
  eexists; split; [reflexivity|].
  apply Qzero_Qred. rewrite Qred_correct. ring.
Qed.

Lemma add_NaN_r (a : number) : (a + NaN)%num = NaN.
Proof. destruct a; reflexivity. Qed.

Lemma mul_NaN_l (a : number) : (NaN * a)%num = NaN.
Proof. reflexivity. Qed.

Lemma limitAbs_NaN (limit : number) : limitAbs NaN limit = NaN.
Proof.
  unfold limitAbs. replace (min limit NaN) with NaN by (destruct limit; reflexivity).
  destruct (- limit)%num; reflexivity.
Qed.

(** [applySmoothing] over a time difference of zero, with the smoothed value
    equal to the real one, computes 0 / 0: both fields become NaN. *)
Lemma applySmoothing_same_time (smooth : SmoothState.t) (real : ContinousState.t)
  (t v : Q) :
  SmoothState.value smooth = Finite v ->
  ContinousState.value real = Finite v ->
  applySmoothing smooth (Finite t) real (Finite t)
  = {| SmoothState.value := NaN; SmoothState.velocity := NaN |}.
Proof.
  intros Hs Hr. unfold applySmoothing. rewrite Hs, Hr.
  destruct (sub_self t) as (d & -> & Hd).
  destruct (sub_self v) as (e & -> & He).
  assert (Hdiv : (fin (1 # 20) * Finite e / Finite d)%num = NaN).
  { unfold mul, div, fin. rewrite Hd.
    rewrite Qzero_Qred; [reflexivity|].
    apply Qzero_true in He. rewrite Qred_correct, He. ring. }
  rewrite Hdiv, add_NaN_r.
  replace (NaN / fin (21 # 20) - SmoothState.velocity smooth)%num with NaN by reflexivity.
  rewrite limitAbs_NaN, add_NaN_r, mul_NaN_l, add_NaN_r. reflexivity.
Qed.

(** ** getCurrentValue *)

Section GetCurrentValue.

Context {co : CoConsistent}.

(** [getCurrentValue] returns; what it returns is the selected value, folded
    by its last three lines. *)
Lemma getCurrentValue_returns (smoothed : bool) (this : ConsistentStore.t) :
  returned (ConsistentStore.getCurrentValue smoothed this)
  = Some (let value := ConsistentStore.selectedValue smoothed this in
          let abs := abs value in
          if strictEq (floor abs %% ofZ 2)%num (ofZ 1)
          then (ofZ 1 - (abs %% ofZ 1))%num
          else (abs %% ofZ 1)%num).
Proof.
  destruct this as [base server u c [[smooth|] [smoothTime|]] real];
    unfold ConsistentStore.getCurrentValue, ConsistentStore.selectedValue;
    unfold bind, get, modify, ret; simpl; reflexivity.
Qed.

End GetCurrentValue.

(** Where the selected value is NaN or infinite, so is the result: it is
    NaN. *)
Lemma getCurrentValue_not_finite {co : CoConsistent} (smoothed : bool)
  (this : ConsistentStore.t) :
  isFinite (ConsistentStore.selectedValue smoothed this) = false ->
  returned (ConsistentStore.getCurrentValue smoothed this) = Some NaN.
Proof.
  intros H. rewrite getCurrentValue_returns.
  destruct (ConsistentStore.selectedValue smoothed this); [reflexivity|reflexivity|discriminate].
Qed.

(** Two smoothed reads at one and the same clock time: the second one
    returns NaN, whatever the clock and the universe are, as soon as the
    state has a finite value at that time. *)
Lemma getCurrentValue_same_time {co : CoConsistent} (this : ConsistentStore.t)
  (smooth : SmoothState.t) (t v : Q) :
  ConsistentStore.state (ConsistentStore.smoothedRef this) = Some smooth ->
  ConsistentStore.time (ConsistentStore.smoothedRef this) = Some (Finite t) ->
  getCurrentTime (ConsistentStore.clock this) = Finite t ->
  SmoothState.value smooth = Finite v ->
  ContinousState.value
    (applyStateAt (ConsistentStore.universe this) (ConsistentStore.realStateRef this)
       (lastElement (history (ConsistentStore.universe this))) (Finite t))
  = Finite v ->
  returned (ConsistentStore.getCurrentValue true this) = Some NaN.
Proof.
  intros Hstate Htime Hclock Hsmooth Hreal.
  apply getCurrentValue_not_finite.
  unfold ConsistentStore.selectedValue.
  rewrite Hstate, Htime, Hclock.
  rewrite (applySmoothing_same_time smooth _ t Hsmooth Hreal). reflexivity.
Qed.

(** C10 (amended): for every store and both values of [smoothed], if the
    value that [getCurrentValue] selects (the real or the smoothed value of
    the state) is a finite number, the call returns a number in the closed
    interval [0, 1]: with [f = abs % 1], which lies in [0, 1), the result is
    [f] itself or [1 - f], which lies in (0, 1]. *)
Theorem getCurrentValue_unit_interval {co : CoConsistent} (smoothed : bool)
  (this : ConsistentStore.t) :
  isFinite (ConsistentStore.selectedValue smoothed this) = true ->
  exists r f,
    returned (ConsistentStore.getCurrentValue smoothed this) = Some r
    /\ inUnitInterval r
    /\ (abs (ConsistentStore.selectedValue smoothed this) %% ofZ 1)%num = Finite f
    /\ 0 <= f < 1
    /\ (r = Finite f
        \/ exists g, r = Finite g /\ Finite g = (ofZ 1 - Finite f)%num /\ 0 < g <= 1).
Proof.
  intros Hfin. rewrite getCurrentValue_returns.
  destruct (ConsistentStore.selectedValue smoothed this) as [| |q]; try discriminate.
  cbv zeta.
  destruct (abs_finite q) as (a & -> & Ha).
  destruct (rem_one_nonneg Ha) as (f & -> & Hf & _).
  destruct (strictEq _ _).
  - destruct (one_minus_fraction Hf) as (g & Hg & Hrange).
    exists (Finite g), f. rewrite Hg.
    split; [reflexivity|]. split; [simpl; lra|]. split; [reflexivity|].
    split; [exact Hf|]. right. exists g. auto.
  - exists (Finite f), f.
    split; [reflexivity|]. split; [simpl; lra|]. split; [reflexivity|].
    split; [exact Hf|]. now left.
Qed.

(** The first read of the example store: the selected value is 0.5. *)
Lemma getCurrentValue_unit_interval_witness :
  exists r f,
    returned (ConsistentStore.getCurrentValue true Example.server) = Some r
    /\ inUnitInterval r
    /\ (abs (ConsistentStore.selectedValue true Example.server) %% ofZ 1)%num = Finite f
    /\ 0 <= f < 1
    /\ (r = Finite f
        \/ exists g, r = Finite g /\ Finite g = (ofZ 1 - Finite f)%num /\ 0 < g <= 1).
Proof.
  apply (getCurrentValue_unit_interval true Example.server). reflexivity.
Defined.

(** C10 (as stated, refuted): on the store [new ConsistentStore(true, 1000,
    0.5, false)], whose clock stands at 1000, a second call of
    [getCurrentValue(true)] divides 0 by a time difference of 0 in
    [applySmoothing] and returns NaN, which is no number of [0, 1]. *)
Lemma getCurrentValue_second_read_is_NaN :
  returned (ConsistentStore.getCurrentValue true Example.server)
  = Some (Finite (1 # 2))
  /\ returned (ConsistentStore.getCurrentValue true Example.serverAfterRead) = Some NaN
  /\ ~ inUnitInterval NaN.
Proof.
  split; [reflexivity|]. split; [reflexivity|]. simpl. tauto.
Qed.

(** ** store-link.ts *)

(** C7: the reserved identifier [RootStoreDefaultLinkId] equals
    [Number.MIN_SAFE_INTEGER], the number -(2^53 - 1) = -9007199254740991. *)
Theorem RootStoreDefaultLinkId_is_MIN_SAFE_INTEGER :
  RootStoreDefaultLinkId = MIN_SAFE_INTEGER
  /\ RootStoreDefaultLinkId = Finite (-9007199254740991 # 1)
  /\ RootStoreDefaultLinkId = (- (ofZ (2 ^ 53) - ofZ 1))%num.
Proof.
  repeat split; reflexivity.
Qed.


(** ** RequestStore *)

(** C4: invoked locally, [add] returns exactly what publishing the request
    to [mainLink] returns, and does not return an observable of the sum;
    invoked from a link it publishes nothing and returns [of(v1 + v2)] (or
    [NEVER], by the draw of [Math.random()]). *)
Theorem add_delegates_to_mainLink (random v1 v2 : number) (L : StoreLink)
  (this : RequestStore.t) :
  RequestStore.add random None v1 v2 this
  = Request_publishTo "add" (mainLink this) [JsNumber v1; JsNumber v2] this
  /\ returned (RequestStore.add random None v1 v2 this)
     = Some (AnswerOf (ActionName "add") (mainLink this) [JsNumber v1; JsNumber v2])
  /\ returned (RequestStore.add random None v1 v2 this)
     <> Some (of_ (JsNumber (v1 + v2)))
  /\ RequestStore.add random (Some L) v1 v2 this
     = Returns (if gt random (fin (1 # 2)) then NEVER else of_ (JsNumber (v1 + v2)))
         this [].
Proof.
  repeat split; try reflexivity. discriminate.
Qed.

(** C2: with the handler [add(origin, a, b) => of(a + b)], the message
    ["add", 2, 3] that arrives on link [L] is answered by one result
    message to [L] that carries 5, followed by the completion marker, and
    every message that is sent goes to [L].  The [add] of [RequestStore]
    answers the same way when its draw is not above 0.5, and not at all
    otherwise. *)
Theorem remote_add_answers_origin_only (S : Type) (store : S)
  (requestStore : RequestStore.t) (random : number)
  (peer : ActionIdentifier -> StoreLink -> list any -> list Notification)
  (L : StoreLink) :
  dispatchAdd peer addOf L [JsString "add"; JsNumber (ofZ 2); JsNumber (ofZ 3)] store
  = [(L, Next (JsNumber (ofZ 5))); (L, Complete)]
  /\ Forall (fun sent => fst sent = L)
       (dispatchAdd peer addOf L
          [JsString "add"; JsNumber (ofZ 2); JsNumber (ofZ 3)] store)
  /\ dispatchAdd peer
       (fun origin ab => RequestStore.add random origin (fst ab) (snd ab)) L
       [JsString "add"; JsNumber (ofZ 2); JsNumber (ofZ 3)] requestStore
     = if gt random (fin (1 # 2)) then []
       else [(L, Next (JsNumber (ofZ 5))); (L, Complete)].
Proof.
  split; [reflexivity|]. split.
  - repeat constructor.
  - unfold dispatchAdd, Request_receive. simpl.
    destruct random as [|s|q]; simpl;
      [reflexivity | destruct s; reflexivity | destruct (Qle_bool q (1 # 2)); reflexivity].
Qed.

(** C1 (as stated, refuted): the local run of [add] calls
    [this.add.publishTo(this.mainLink, v1, v2)], whose first argument is a
    link and none of the three tagged targets. *)
Lemma add_publishTo_is_addressed_by_link :
  effects (RequestStore.add (fin (1 # 4)) None (ofZ 2) (ofZ 3) Example.store)
  = [PublishTo (ActionName "add") (ArgLink Example.self)
       [JsNumber (ofZ 2); JsNumber (ofZ 3)]]
  /\ isAddressingTarget (ArgLink Example.self) = false
  /\ publishesTargetsOnly
       (effects (RequestStore.add (fin (1 # 4)) None (ofZ 2) (ofZ 3) Example.store))
     = false.
Proof.
  repeat split; reflexivity.
Qed.

(** ** Links *)

Lemma number_eqb_refl (n : number) : number_eqb n n = true.
Proof.
  destruct n as [|s|q]; simpl; [reflexivity | apply Bool.eqb_reflx |].
  now rewrite Z.eqb_refl, Pos.eqb_refl.
Qed.

Lemma StoreLink_eqb_refl (l : StoreLink) : StoreLink_eqb l l = true.
Proof.
  destruct l as [[s|n] c]; unfold StoreLink_eqb; simpl;
    rewrite Nat.eqb_refl, ?String.eqb_refl, ?number_eqb_refl; reflexivity.
Qed.

(** A message addressed to all links except [L] does not reach [L]. *)
Lemma all_except_one_skips (links : list StoreLink) (L : StoreLink) :
  ~ In L (resolveTarget links (ToAllExceptOne L)).
Proof.
  simpl. rewrite filter_In, StoreLink_eqb_refl. intros [_ H]. discriminate.
Qed.

(** ** ConsistentStore *)

Section ConsistentStoreHandlers.

Context {co : CoConsistent}.

Import ConsistentStore.

Ltac run_handler :=
  unfold invert, informTime, changeTime, subscriber, Action_publishTo,
    Action_call, bind, get, modify, emit, ret, throw;
  simpl.

(** C9: invoked from a link with [stateTime] or [id] missing ([undefined] or
    [null]), [invert] returns at once: the store is left as it was, with
    the same clock, [smoothedRef] and universe, and nothing is published. *)
Theorem invert_without_parameters_is_noop (random : number) (L : StoreLink)
  (stateTime id : optional number) (this : t) :
  isNullish stateTime || isNullish id = true ->
  invert random (Some L) stateTime id this = Returns tt this []
  /\ clock (finalStore (invert random (Some L) stateTime id this)) = clock this
  /\ smoothedRef (finalStore (invert random (Some L) stateTime id this))
     = smoothedRef this
  /\ universe (finalStore (invert random (Some L) stateTime id this)) = universe this
  /\ effects (invert random (Some L) stateTime id this) = [].
Proof.
  intros H.
  assert (E : invert random (Some L) stateTime id this = Returns tt this []).
  { destruct stateTime, id; try discriminate H; reflexivity. }
  rewrite E. repeat split.
Qed.

(** What [invert] logs when it is called locally, whatever it is passed. *)
Lemma invert_local_effects (random : number) (stateTime id : optional number)
  (this : t) :
  effects (invert random None stateTime id this)
  = [PublishTo (ActionName "invert") (ArgTarget ToAll)
       [JsNumber (getCurrentTime (clock this)); JsNumber random]].
Proof.
  destruct this as [base server u c [[smooth|] [smoothTime|]] real];
    run_handler; reflexivity.
Qed.

(** What [invert] logs when it is called from a link with both parameters. *)
Lemma invert_remote_effects (random : number) (L : StoreLink)
  (stateTime id : number) (this : t) :
  effects (invert random (Some L) (Present stateTime) (Present id) this)
  = [PublishTo (ActionName "invert") (ArgTarget (ToAllExceptOne L))
       [JsNumber stateTime; JsNumber id]].
Proof.
  destruct this as [base server u c [[smooth|] [smoothTime|]] real];
    run_handler; destruct (gt stateTime (getCurrentTime c)); reflexivity.
Qed.

(** Called from a link, [invert] logs nothing or the one call above. *)
Lemma invert_remote_cases (random : number) (L : StoreLink)
  (stateTime id : optional number) (this : t) :
  effects (invert random (Some L) stateTime id this) = []
  \/ exists message,
      effects (invert random (Some L) stateTime id this)
      = [PublishTo (ActionName "invert") (ArgTarget (ToAllExceptOne L)) message].
Proof.
  destruct stateTime as [| |stateTime]; try (left; reflexivity);
    destruct id as [| |id]; try (left; reflexivity).
  right. eexists. apply invert_remote_effects.
Qed.

(** C3: [invert] forwards the action by its origin.  Called locally it
    publishes the invert message with the target [{ to: "all" }]; called
    from link [L] with its two parameters it publishes them with the target
    [{ to: "all-except-one", except: L }]; and whatever it is called with
    from [L], no call it logs has [L] among its recipients. *)
Theorem invert_forwards_by_origin (random : number) (L : StoreLink)
  (stateTime id : number) (anyStateTime anyId : optional number)
  (links : list StoreLink) (this : t) :
  effects (invert random None anyStateTime anyId this)
  = [PublishTo (ActionName "invert") (ArgTarget ToAll)
       [JsNumber (getCurrentTime (clock this)); JsNumber random]]
  /\ effects (invert random (Some L) (Present stateTime) (Present id) this)
     = [PublishTo (ActionName "invert") (ArgTarget (ToAllExceptOne L))
          [JsNumber stateTime; JsNumber id]]
  /\ Forall (fun e => ~ In L (recipients links e))
       (effects (invert random (Some L) anyStateTime anyId this)).
Proof.
  split; [apply invert_local_effects|]. split; [apply invert_remote_effects|].
  destruct (invert_remote_cases random L anyStateTime anyId this) as [-> | [message ->]].
  - constructor.
  - constructor; [|constructor]. apply all_except_one_skips.
Qed.

(** C1 (amended): every [publishTo] call of the Action handlers
    [changeTime], [informTime] and [invert] is addressed with one of the
    three tagged targets; the [publishTo] call of the Request handler [add]
    is addressed with a link, [mainLink], and [add] makes it only when it is
    called locally. *)
Theorem action_publishTo_is_addressed_by_target (random by_ v1 v2 : number)
  (origin : option StoreLink) (L : StoreLink) (currentTime stateTime id : optional number)
  (this : t) (requestStore : RequestStore.t) :
  publishesTargetsOnly (effects (changeTime origin by_ this)) = true
  /\ publishesTargetsOnly (effects (informTime origin currentTime this)) = true
  /\ publishesTargetsOnly (effects (invert random origin stateTime id this)) = true
  /\ effects (RequestStore.add random None v1 v2 requestStore)
     = [PublishTo (ActionName "add") (ArgLink (mainLink requestStore))
          [JsNumber v1; JsNumber v2]]
  /\ effects (RequestStore.add random (Some L) v1 v2 requestStore) = [].
Proof.
  split; [|split; [|split; [|split; reflexivity]]].
  - run_handler. destruct (onServer this); reflexivity.
  - run_handler. destruct origin as [o|]; [|reflexivity].
    destruct currentTime as [| |currentTime]; try reflexivity.
    destruct (onServer this); reflexivity.
  - destruct origin as [o|].
    + destruct (invert_remote_cases random o stateTime id this) as [-> | [message ->]];
        reflexivity.
    + rewrite invert_local_effects. reflexivity.
Qed.

(** C5: each run of the two subscriber handlers calls [accept] exactly once
    and [deny] never, returns, and so takes the attempt from [Pending] to
    [Accepted]. *)
Theorem subscribers_accept_exactly_once (connection : Connection) (this : t)
  (requestStore : RequestStore.t) :
  (exists payload this',
      subscriber connection this = Returns tt this' [Accept payload]
      /\ runAttempt (effects (subscriber connection this)) = Accepted payload)
  /\ List.length (filter isAccept (effects (subscriber connection this))) = 1%nat
  /\ filter isDeny (effects (subscriber connection this)) = []
  /\ RequestStore.subscriber connection requestStore
     = Returns tt requestStore [Accept []]
  /\ runAttempt (effects (RequestStore.subscriber connection requestStore))
     = Accepted []
  /\ List.length
       (filter isAccept (effects (RequestStore.subscriber connection requestStore)))
     = 1%nat
  /\ filter isDeny (effects (RequestStore.subscriber connection requestStore)) = [].
Proof.
  split; [|repeat split].
  do 2 eexists. split; reflexivity.
Qed.

(** The field [onServer] is set by the constructor and is read-only: no
    handler changes it. *)
Lemma onServer_is_readonly (base : Store) (random time value by_ : number)
  (server directionInverted smoothed : bool) (origin : option StoreLink)
  (connection : Connection) (a b : optional number) (this : t) :
  onServer (fst (new base random server time value directionInverted)) = server
  /\ onServer (finalStore (changeTime origin by_ this)) = onServer this
  /\ onServer (finalStore (informTime origin a this)) = onServer this
  /\ onServer (finalStore (invert random origin a b this)) = onServer this
  /\ onServer (finalStore (subscriber connection this)) = onServer this
  /\ onServer (finalStore (getCurrentValue smoothed this)) = onServer this.
Proof.
  split; [reflexivity|].
  destruct this as [super0 server0 u c [[smooth|] [smoothTime|]] real];
    repeat split; run_handler;
    try (destruct server0; reflexivity);
    try (destruct origin as [o|]; [|reflexivity]);
    try (destruct a as [| |a]; try reflexivity);
    try (destruct b as [| |b]; try reflexivity);
    try (destruct server0; reflexivity);
    try (destruct (gt a (getCurrentTime c)); reflexivity);
    try reflexivity.
Qed.

(** C6: on a store with [onServer = true] the local call of [changeTime]
    throws for every argument: the error of the handler reaches the caller,
    the store is left as it was and nothing is published. *)
Theorem changeTime_on_server_throws (by_ : number) (this : t) :
  onServer this = true ->
  Action_call changeTime by_ this
  = Throws (Error "should not warp time on the server") this []
  /\ thrown (Action_call changeTime by_ this)
     = Some (Error "should not warp time on the server").
Proof.
  intros H. run_handler. rewrite H. split; reflexivity.
Qed.

End ConsistentStoreHandlers.

(** [invert] on the example store, called from [L] with [stateTime = null]. *)
Lemma invert_without_parameters_is_noop_witness :
  ConsistentStore.invert (fin (1 # 3)) (Some Example.L) Null (Present (ofZ 7))
    Example.server
  = Returns tt Example.server []
  /\ ConsistentStore.clock
       (finalStore (ConsistentStore.invert (fin (1 # 3)) (Some Example.L) Null
                      (Present (ofZ 7)) Example.server))
     = ConsistentStore.clock Example.server
  /\ ConsistentStore.smoothedRef
       (finalStore (ConsistentStore.invert (fin (1 # 3)) (Some Example.L) Null
                      (Present (ofZ 7)) Example.server))
     = ConsistentStore.smoothedRef Example.server
  /\ ConsistentStore.universe
       (finalStore (ConsistentStore.invert (fin (1 # 3)) (Some Example.L) Null
                      (Present (ofZ 7)) Example.server))
     = ConsistentStore.universe Example.server
  /\ effects (ConsistentStore.invert (fin (1 # 3)) (Some Example.L) Null
                (Present (ofZ 7)) Example.server)
     = [].
Proof.
  apply (invert_without_parameters_is_noop (fin (1 # 3)) Example.L Null
           (Present (ofZ 7)) Example.server).
  reflexivity.
Defined.

(** [changeTime(7)] on the example store, which was constructed with
    [onServer = true]. *)
Lemma changeTime_on_server_throws_witness :
  Action_call ConsistentStore.changeTime (ofZ 7) Example.server
  = Throws (Error "should not warp time on the server") Example.server []
  /\ thrown (Action_call ConsistentStore.changeTime (ofZ 7) Example.server)
     = Some (Error "should not warp time on the server").
Proof.
  apply (changeTime_on_server_throws (ofZ 7) Example.server). reflexivity.
Defined.

(** * Further properties of the sources *)

(** ** Comparisons *)

Lemma lessEq_Finite (x y : Q) : lessEq (Finite x) (Finite y) = true <-> x <= y.
Proof. apply Qle_bool_iff. Qed.

Lemma lt_Finite (x y : Q) : lt (Finite x) (Finite y) = true <-> x < y.
Proof.
  simpl. rewrite negb_true_iff. split.
  - intros H. apply Qnot_le_lt. intros Hle. apply Qle_bool_iff in Hle. congruence.
  - intros H. destruct (Qle_bool y x) eqn:E; [|reflexivity].
    apply Qle_bool_iff in E. exfalso. apply (Qlt_not_le _ _ H E).
Qed.

Lemma lt_Finite_false (x y : Q) : lt (Finite x) (Finite y) = false <-> y <= x.
Proof.
  simpl. rewrite negb_false_iff. apply Qle_bool_iff.
Qed.

(** ** limitAbs *)

(** On finite arguments with a limit that is not negative, the result lies
    between [-limit] and [limit] and is [value] wherever [value] does. *)
Lemma limitAbs_Finite (v l : Q) :
  0 <= l ->
  exists r, limitAbs (Finite v) (Finite l) = Finite r
            /\ - l <= r <= l /\ (- l <= v <= l -> r == v).
Proof.
  intros Hl. unfold limitAbs, min, max, neg, fin.
  destruct (lt (Finite v) (Finite l)) eqn:Hvl.
  - apply lt_Finite in Hvl.
    destruct (lt (Finite (Qred (- l))) (Finite v)) eqn:Hlv.
    + apply lt_Finite in Hlv. rewrite Qred_correct in Hlv.
      exists v. split; [reflexivity|]. split; [lra|reflexivity].
    + apply lt_Finite_false in Hlv. rewrite Qred_correct in Hlv.
      exists (Qred (- l)). split; [reflexivity|]. rewrite Qred_correct.
      split; [lra|]. intros. lra.
  - apply lt_Finite_false in Hvl.
    destruct (lt (Finite (Qred (- l))) (Finite l)) eqn:Hll.
    + exists l. split; [reflexivity|]. split; [lra|]. intros. lra.
    + apply lt_Finite_false in Hll. rewrite Qred_correct in Hll.
      exists (Qred (- l)). split; [reflexivity|]. rewrite Qred_correct.
      split; [lra|]. intros. lra.
Qed.

Lemma strictEq_Finite (x y : Q) : strictEq (Finite x) (Finite y) = true <-> x == y.
Proof. apply Qeq_bool_iff. Qed.

(** X1.  [limitAbs] clamps: for a value that is not NaN and a limit that is
    not negative, the result lies between [-limit] and [limit], and it is
    the value itself wherever the value lies between them. *)
Theorem limitAbs_within_limit (value limit : number) :
  value <> NaN ->
  lessEq (ofZ 0) limit = true ->
  lessEq (- limit)%num (limitAbs value limit) = true
  /\ lessEq (limitAbs value limit) limit = true
  /\ (lessEq (- limit)%num value && lessEq value limit = true ->
      strictEq (limitAbs value limit) value = true).
Proof.
  intros Hnan Hlimit.
  destruct value as [|s|v]; [congruence| |]; destruct limit as [|[]|l];
    try discriminate Hlimit.
  - destruct s; repeat split; try reflexivity; intros H; discriminate H.
  - apply lessEq_Finite in Hlimit. change (inject_Z 0) with 0 in Hlimit.
    destruct s.
    + replace (limitAbs (Infinity true) (Finite l)) with (Finite (Qred (- l)))
        by reflexivity.
      repeat split; try (intros H; discriminate H);
        apply lessEq_Finite; rewrite ?Qred_correct; lra.
    + replace (limitAbs (Infinity false) (Finite l))
        with (max (Finite (Qred (- l))) (Finite l)) by reflexivity.
      unfold max. destruct (lt (Finite (Qred (- l))) (Finite l)); repeat split;
        try (intros H; discriminate H);
        apply lessEq_Finite; rewrite ?Qred_correct; lra.
  - repeat split; try reflexivity. intros _. apply strictEq_Finite. reflexivity.
  - apply lessEq_Finite in Hlimit. change (inject_Z 0) with 0 in Hlimit.
    destruct (limitAbs_Finite v Hlimit) as (r & -> & Hr & Hin).
    split; [|split].
    + apply lessEq_Finite. unfold fin. rewrite Qred_correct. lra.
    + apply lessEq_Finite. lra.
    + intros H. apply andb_true_iff in H. destruct H as [H1 H2].
      apply lessEq_Finite in H1, H2. unfold fin in H1. rewrite Qred_correct in H1.
      apply strictEq_Finite. apply Hin. lra.
Qed.

Lemma limitAbs_within_limit_witness :
  lessEq (- fin (1 # 2))%num (limitAbs (ofZ 3) (fin (1 # 2))) = true
  /\ lessEq (limitAbs (ofZ 3) (fin (1 # 2))) (fin (1 # 2)) = true
  /\ (lessEq (- fin (1 # 2))%num (ofZ 3) && lessEq (ofZ 3) (fin (1 # 2)) = true ->
      strictEq (limitAbs (ofZ 3) (fin (1 # 2))) (ofZ 3) = true).
Proof.
  apply (@limitAbs_within_limit (ofZ 3) (fin (1 # 2)));
    [discriminate | reflexivity].
Defined.

(** X2.  With a negative limit the clamp is empty and [limitAbs] returns
    [-limit], which is positive, for every value that is not NaN. *)
Theorem limitAbs_negative_limit (value limit : number) :
  value <> NaN ->
  lt limit (ofZ 0) = true ->
  limitAbs value limit = (- limit)%num.
Proof.
  intros Hnan Hlimit.
  destruct value as [|s|v]; [congruence| |]; destruct limit as [|[]|l];
    try discriminate Hlimit.
  - destruct s; reflexivity.
  - apply lt_Finite in Hlimit. change (inject_Z 0) with 0 in Hlimit.
    destruct s; [reflexivity|].
    replace (limitAbs (Infinity false) (Finite l))
      with (max (Finite (Qred (- l))) (Finite l)) by reflexivity.
    unfold max.
    destruct (lt (Finite (Qred (- l))) (Finite l)) eqn:E; [|reflexivity].
    apply lt_Finite in E. rewrite Qred_correct in E. lra.
  - reflexivity.
  - apply lt_Finite in Hlimit. change (inject_Z 0) with 0 in Hlimit.
    unfold limitAbs, min, max, neg, fin.
    destruct (lt (Finite v) (Finite l)) eqn:Hvl.
    + apply lt_Finite in Hvl.
      destruct (lt (Finite (Qred (- l))) (Finite v)) eqn:E; [|reflexivity].
      apply lt_Finite in E. rewrite Qred_correct in E. lra.
    + destruct (lt (Finite (Qred (- l))) (Finite l)) eqn:E; [|reflexivity].
      apply lt_Finite in E. rewrite Qred_correct in E. lra.
Qed.

Lemma limitAbs_negative_limit_witness :
  limitAbs (ofZ 0) (fin (- 1 # 100)) = (- fin (- 1 # 100))%num.
Proof.
  apply (@limitAbs_negative_limit (ofZ 0) (fin (- 1 # 100)));
    [discriminate | reflexivity].
Defined.

(** X3.  NaN in either argument of [limitAbs] gives NaN. *)
Theorem limitAbs_propagates_NaN (value limit : number) :
  limitAbs NaN limit = NaN /\ limitAbs value NaN = NaN.
Proof.
  split; [apply limitAbs_NaN|]. destruct value; reflexivity.
Qed.

(** ** ContinousState.update *)

Lemma velocity_value : velocity = Finite (1 # 10000).
Proof. reflexivity. Qed.

Lemma neg_velocity_value : (- velocity)%num = Finite (- 1 # 10000).
Proof. reflexivity. Qed.

Lemma strictEq_refl (a : number) : a <> NaN -> strictEq a a = true.
Proof.
  destruct a as [|s|q]; intros H; [congruence| |].
  - apply Bool.eqb_reflx.
  - apply strictEq_Finite. reflexivity.
Qed.

Ltac case_if :=
  match goal with
  | |- context [if ?c then _ else _] => destruct c eqn:?
  end.

(** X4.  [update] does not accumulate: applying it once more with the same
    arguments changes nothing. *)
Theorem update_idempotent (this : ContinousState.t) (base : option ContinousState.t)
  (deltaTime : number) (action : option StateAction.t)
  (prevDeltaTime : option number) (prevBase : option ContinousState.t) :
  ContinousState.update
    (ContinousState.update this base deltaTime action prevDeltaTime prevBase)
    base deltaTime action prevDeltaTime prevBase
  = ContinousState.update this base deltaTime action prevDeltaTime prevBase.
Proof.
  unfold ContinousState.update. destruct base as [base|]; [|reflexivity].
  repeat case_if; reflexivity.
Qed.

(** X5.  An ["invert"] whose base state and time difference are those of the
    previous run is skipped: the state is left as it is (the base value and
    the time difference being numbers, not NaN). *)
Theorem update_skips_repeated_invert (this base : ContinousState.t)
  (deltaTime id : number) :
  ContinousState.value base <> NaN ->
  deltaTime <> NaN ->
  ContinousState.update this (Some base) deltaTime
    (Some {| StateAction.type := StateAction.invert; StateAction.id := id |})
    (Some deltaTime) (Some base)
  = this.
Proof.
  intros Hv Hd. unfold ContinousState.update. simpl.
  rewrite Bool.eqb_reflx, (strictEq_refl Hv), (strictEq_refl Hd). reflexivity.
Qed.

Lemma update_skips_repeated_invert_witness :
  ContinousState.update
    {| ContinousState.value := ofZ 9; ContinousState.directionInverted := true |}
    (Some {| ContinousState.value := fin (1 # 2);
             ContinousState.directionInverted := false |})
    (ofZ 100)
    (Some {| StateAction.type := StateAction.invert; StateAction.id := ofZ 7 |})
    (Some (ofZ 100))
    (Some {| ContinousState.value := fin (1 # 2);
             ContinousState.directionInverted := false |})
  = {| ContinousState.value := ofZ 9; ContinousState.directionInverted := true |}.
Proof.
  apply (@update_skips_repeated_invert
           {| ContinousState.value := ofZ 9; ContinousState.directionInverted := true |}
           {| ContinousState.value := fin (1 # 2);
              ContinousState.directionInverted := false |}
           (ofZ 100) (ofZ 7)); discriminate.
Defined.

(** X6.  A base value of NaN is never equal to the previous one, so the
    same ["invert"] is applied again: the direction is flipped and the value
    is NaN. *)
Theorem update_repeats_invert_on_NaN (this base : ContinousState.t)
  (deltaTime id : number) :
  ContinousState.value base = NaN ->
  ContinousState.update this (Some base) deltaTime
    (Some {| StateAction.type := StateAction.invert; StateAction.id := id |})
    (Some deltaTime) (Some base)
  = {| ContinousState.value := NaN;
       ContinousState.directionInverted := negb (ContinousState.directionInverted base) |}.
Proof.
  intros Hv. unfold ContinousState.update. simpl. rewrite Hv. simpl.
  rewrite andb_false_r. reflexivity.
Qed.

Lemma update_repeats_invert_on_NaN_witness :
  ContinousState.update
    {| ContinousState.value := ofZ 9; ContinousState.directionInverted := true |}
    (Some {| ContinousState.value := NaN; ContinousState.directionInverted := false |})
    (ofZ 100)
    (Some {| StateAction.type := StateAction.invert; StateAction.id := ofZ 7 |})
    (Some (ofZ 100))
    (Some {| ContinousState.value := NaN; ContinousState.directionInverted := false |})
  = {| ContinousState.value := NaN; ContinousState.directionInverted := true |}.
Proof.
  apply (@update_repeats_invert_on_NaN
           {| ContinousState.value := ofZ 9; ContinousState.directionInverted := true |}
           {| ContinousState.value := NaN; ContinousState.directionInverted := false |}
           (ofZ 100) (ofZ 7)).
  reflexivity.
Defined.

(** X7.  Without an action [update] extrapolates: over a time difference
    that is not negative the value moves in the direction of the base state,
    up when it is not inverted and down when it is, the direction is kept,
    and over no time the value stays. *)
Theorem update_moves_in_direction (this base : ContinousState.t) (b d : Q)
  (prevDeltaTime : option number) (prevBase : option ContinousState.t) :
  ContinousState.value base = Finite b ->
  0 <= d ->
  ContinousState.directionInverted
    (ContinousState.update this (Some base) (Finite d) None prevDeltaTime prevBase)
  = ContinousState.directionInverted base
  /\ (if ContinousState.directionInverted base
      then lessEq
             (ContinousState.value
                (ContinousState.update this (Some base) (Finite d) None
                   prevDeltaTime prevBase))
             (ContinousState.value base)
      else lessEq
             (ContinousState.value base)
             (ContinousState.value
                (ContinousState.update this (Some base) (Finite d) None
                   prevDeltaTime prevBase))) = true
  /\ (d == 0 ->
      strictEq
        (ContinousState.value
           (ContinousState.update this (Some base) (Finite d) None
              prevDeltaTime prevBase))
        (ContinousState.value base) = true).
Proof.
  intros Hb Hd. unfold ContinousState.update. cbn [ContinousState.isInit
    ContinousState.isInvert andb ContinousState.value ContinousState.directionInverted].
  rewrite Hb. split; [reflexivity|].
  destruct (ContinousState.directionInverted base);
    rewrite ?neg_velocity_value, ?velocity_value; unfold mul, add, fin;
    (split; [|intros Hz]);
    first [apply lessEq_Finite | apply strictEq_Finite];
    rewrite !Qred_correct; try rewrite Hz; lra.
Qed.

Lemma update_moves_in_direction_witness :
  ContinousState.directionInverted
    (ContinousState.update
       {| ContinousState.value := ofZ 0; ContinousState.directionInverted := false |}
       (Some {| ContinousState.value := Finite (1 # 2);
                ContinousState.directionInverted := true |})
       (Finite 1000) None None None)
  = true
  /\ lessEq
       (ContinousState.value
          (ContinousState.update
             {| ContinousState.value := ofZ 0; ContinousState.directionInverted := false |}
             (Some {| ContinousState.value := Finite (1 # 2);
                      ContinousState.directionInverted := true |})
             (Finite 1000) None None None))
       (Finite (1 # 2)) = true
  /\ (1000 == 0 ->
      strictEq
        (ContinousState.value
           (ContinousState.update
              {| ContinousState.value := ofZ 0; ContinousState.directionInverted := false |}
              (Some {| ContinousState.value := Finite (1 # 2);
                       ContinousState.directionInverted := true |})
              (Finite 1000) None None None))
        (Finite (1 # 2)) = true).
Proof.
  apply (@update_moves_in_direction
           {| ContinousState.value := ofZ 0; ContinousState.directionInverted := false |}
           {| ContinousState.value := Finite (1 # 2);
              ContinousState.directionInverted := true |}
           (1 # 2) 1000 None None); [reflexivity | discriminate].
Defined.

(** X8.  An ["invert"] that is not skipped, that is, whose base state or
    time difference differs from the previous run or has no previous run,
    flips the direction of the base state, whatever [prevBase] and
    [prevDeltaTime] are; and a second ["invert"] on the outcome that is not
    skipped either restores the direction. *)
Theorem update_invert_flips_direction (this this' base : ContinousState.t)
  (deltaTime deltaTime' id id' : number) (prevDeltaTime prevDeltaTime' : option number)
  (prevBase prevBase' : option ContinousState.t) :
  repeatsPreviousRun base deltaTime prevDeltaTime prevBase = false ->
  ContinousState.directionInverted
    (ContinousState.update this (Some base) deltaTime
       (Some {| StateAction.type := StateAction.invert; StateAction.id := id |})
       prevDeltaTime prevBase)
  = negb (ContinousState.directionInverted base)
  /\ (repeatsPreviousRun
        (ContinousState.update this (Some base) deltaTime
           (Some {| StateAction.type := StateAction.invert; StateAction.id := id |})
           prevDeltaTime prevBase)
        deltaTime' prevDeltaTime' prevBase' = false ->
      ContinousState.directionInverted
        (ContinousState.update this'
           (Some (ContinousState.update this (Some base) deltaTime
                    (Some {| StateAction.type := StateAction.invert;
                             StateAction.id := id |})
                    prevDeltaTime prevBase))
           deltaTime'
           (Some {| StateAction.type := StateAction.invert; StateAction.id := id' |})
           prevDeltaTime' prevBase')
      = ContinousState.directionInverted base).
Proof.
  intros Hskip.
  assert (Hflip : forall t b d i pd pb,
             repeatsPreviousRun b d pd pb = false ->
             ContinousState.directionInverted
               (ContinousState.update t (Some b) d
                  (Some {| StateAction.type := StateAction.invert;
                           StateAction.id := i |})
                  pd pb)
             = negb (ContinousState.directionInverted b)).
  { intros t b d i pd pb H. unfold ContinousState.update.
    cbn [ContinousState.isInit ContinousState.isInvert StateAction.type andb].
    unfold repeatsPreviousRun in H. rewrite H. reflexivity. }
  split; [apply Hflip; exact Hskip|].
  intros Hskip'. rewrite (Hflip _ _ _ _ _ _ Hskip'), (Hflip _ _ _ _ _ _ Hskip).
  apply negb_involutive.
Qed.

(** An ["invert"] with a previous base state of another value. *)
Lemma update_invert_flips_direction_witness :
  ContinousState.directionInverted
    (ContinousState.update
       {| ContinousState.value := ofZ 9; ContinousState.directionInverted := true |}
       (Some {| ContinousState.value := fin (1 # 2);
                ContinousState.directionInverted := false |})
       (ofZ 100)
       (Some {| StateAction.type := StateAction.invert; StateAction.id := ofZ 7 |})
       (Some (ofZ 100))
       (Some {| ContinousState.value := fin (1 # 4);
                ContinousState.directionInverted := false |}))
  = negb false
  /\ (repeatsPreviousRun
        (ContinousState.update
           {| ContinousState.value := ofZ 9; ContinousState.directionInverted := true |}
           (Some {| ContinousState.value := fin (1 # 2);
                    ContinousState.directionInverted := false |})
           (ofZ 100)
           (Some {| StateAction.type := StateAction.invert; StateAction.id := ofZ 7 |})
           (Some (ofZ 100))
           (Some {| ContinousState.value := fin (1 # 4);
                    ContinousState.directionInverted := false |}))
        (ofZ 50) (Some (ofZ 100)) None = false ->
      ContinousState.directionInverted
        (ContinousState.update
           {| ContinousState.value := ofZ 0; ContinousState.directionInverted := false |}
           (Some (ContinousState.update
                    {| ContinousState.value := ofZ 9;
                       ContinousState.directionInverted := true |}
                    (Some {| ContinousState.value := fin (1 # 2);
                             ContinousState.directionInverted := false |})
                    (ofZ 100)
                    (Some {| StateAction.type := StateAction.invert;
                             StateAction.id := ofZ 7 |})
                    (Some (ofZ 100))
                    (Some {| ContinousState.value := fin (1 # 4);
                             ContinousState.directionInverted := false |})))
           (ofZ 50)
           (Some {| StateAction.type := StateAction.invert; StateAction.id := ofZ 8 |})
           (Some (ofZ 100)) None)
      = false).
Proof.
  apply (@update_invert_flips_direction
           {| ContinousState.value := ofZ 9; ContinousState.directionInverted := true |}
           {| ContinousState.value := ofZ 0; ContinousState.directionInverted := false |}
           {| ContinousState.value := fin (1 # 2);
              ContinousState.directionInverted := false |}
           (ofZ 100) (ofZ 50) (ofZ 7) (ofZ 8) (Some (ofZ 100)) (Some (ofZ 100))
           (Some {| ContinousState.value := fin (1 # 4);
                    ContinousState.directionInverted := false |})
           None).
  reflexivity.
Defined.

(** ** Arithmetic on finite numbers *)

Lemma sub_Finite (a b : Q) :
  (Finite a - Finite b)%num = Finite (Qred (a + Qred (- b))).
Proof. reflexivity. Qed.


(** ** getCurrentValue, further *)

Section ConsistentStoreFurther.

Context {co : CoConsistent}.

Import ConsistentStore.

(** X11.  While [smoothedRef] is not yet filled, [getCurrentValue] does the
    same for both values of [smoothed]: it returns the folded real value
    and fills [smoothedRef] with the real value, the velocity of the real
    direction and the time of the clock. *)
Theorem getCurrentValue_first_read (this : t) :
  state (smoothedRef this) = None \/ time (smoothedRef this) = None ->
  getCurrentValue true this = getCurrentValue false this
  /\ smoothedRef (finalStore (getCurrentValue true this))
     = {| state :=
            Some {| SmoothState.value := ContinousState.value (realStateNow this);
                    SmoothState.velocity :=
                      if ContinousState.directionInverted (realStateNow this)
                      then (- velocity)%num else velocity |};
          time := Some (getCurrentTime (clock this)) |}.
Proof.
  destruct this as [base server u c [[smooth|] [smoothTime|]] real]; simpl;
    intros [H|H]; try discriminate H; split; reflexivity.
Qed.

(** X12.  [getCurrentValue] returns, publishes nothing and leaves the
    clock, the universe and [onServer] as they are; it stores the state at
    the time of the clock in [realStateRef], and afterwards [smoothedRef]
    holds a state and the time of the clock. *)
Theorem getCurrentValue_frame (smoothed : bool) (this : t) :
  thrown (getCurrentValue smoothed this) = None
  /\ effects (getCurrentValue smoothed this) = []
  /\ clock (finalStore (getCurrentValue smoothed this)) = clock this
  /\ universe (finalStore (getCurrentValue smoothed this)) = universe this
  /\ onServer (finalStore (getCurrentValue smoothed this)) = onServer this
  /\ super (finalStore (getCurrentValue smoothed this)) = super this
  /\ realStateRef (finalStore (getCurrentValue smoothed this)) = realStateNow this
  /\ time (smoothedRef (finalStore (getCurrentValue smoothed this)))
     = Some (getCurrentTime (clock this))
  /\ state (smoothedRef (finalStore (getCurrentValue smoothed this))) <> None.
Proof.
  destruct this as [base server u c [[smooth|] [smoothTime|]] real];
    repeat split; try reflexivity; discriminate.
Qed.

(** X13.  What [getCurrentValue(false)] returns does not depend on
    [smoothedRef]. *)
Theorem getCurrentValue_unsmoothed_ignores_smoothedRef (r : SmoothedRef) (this : t) :
  returned (getCurrentValue false (setSmoothedRef r this))
  = returned (getCurrentValue false this).
Proof.
  destruct this as [base server u c [[smooth|] [smoothTime|]] real];
    destruct r as [[smooth'|] [smoothTime'|]]; reflexivity.
Qed.

(** X14.  Where the selected value is NaN or an infinity, [getCurrentValue]
    returns NaN. *)
Theorem getCurrentValue_of_NaN_or_infinity (smoothed : bool) (this : t) :
  isFinite (selectedValue smoothed this) = false ->
  returned (getCurrentValue smoothed this) = Some NaN.
Proof.
  apply getCurrentValue_not_finite.
Qed.

(** X15.  Two smoothed reads at one and the same time of the clock: once
    [smoothedRef] holds the finite value that the state has at that time,
    together with that time, [getCurrentValue(true)] returns NaN. *)
Theorem getCurrentValue_twice_at_one_time (this : t) (smooth : SmoothState.t)
  (t v : Q) :
  state (smoothedRef this) = Some smooth ->
  time (smoothedRef this) = Some (Finite t) ->
  getCurrentTime (clock this) = Finite t ->
  SmoothState.value smooth = Finite v ->
  ContinousState.value
    (applyStateAt (universe this) (realStateRef this)
       (lastElement (history (universe this))) (Finite t))
  = Finite v ->
  returned (getCurrentValue true this) = Some NaN.
Proof.
  apply getCurrentValue_same_time.
Qed.

(** ** The constructor and the subscriber *)

(** X16.  The constructor sets one timer for [informTime] on a client and
    none on the server, and publishes nothing; the store it builds has an
    empty [smoothedRef], so that its first [getCurrentValue] does the same
    for both values of [smoothed]. *)
Theorem new_store (base : Store) (random time value : number)
  (server directionInverted : bool) :
  snd (new base random server time value directionInverted)
  = (if server then [] else [SetTimeout CallInformTime])
  /\ smoothedRef (fst (new base random server time value directionInverted))
     = {| state := None; time := None |}
  /\ getCurrentValue true (fst (new base random server time value directionInverted))
     = getCurrentValue false (fst (new base random server time value directionInverted)).
Proof.
  split; [destruct server; reflexivity|]. split; reflexivity.
Qed.

(** X17.  The subscriber hands [accept] the time of the clock and the state
    at that time, which is also the state that [getCurrentValue] computes;
    it stores that state in [realStateRef] and leaves the clock, the
    universe and [smoothedRef] as they are. *)
Theorem subscriber_payload (connection : Connection) (smoothed : bool) (this : t) :
  effects (subscriber connection this)
  = [Accept [JsNumber (getCurrentTime (clock this));
             JsNumber (ContinousState.value (realStateNow this));
             JsBoolean (ContinousState.directionInverted (realStateNow this))]]
  /\ realStateRef (finalStore (subscriber connection this))
     = realStateRef (finalStore (getCurrentValue smoothed this))
  /\ clock (finalStore (subscriber connection this)) = clock this
  /\ universe (finalStore (subscriber connection this)) = universe this
  /\ smoothedRef (finalStore (subscriber connection this)) = smoothedRef this.
Proof.
  destruct this as [base server u c [[smooth|] [smoothTime|]] real];
    repeat split; reflexivity.
Qed.

End ConsistentStoreFurther.

(** ** changeTime, informTime and the exchange of clock times *)


Section TimeExchange.

Context {co : CoConsistent}.

Import ConsistentStore.


(** X19.  [informTime] never changes the store and never throws.  Called
    from a link it publishes only on the server and only when it is given
    a time: then it sends [changeTime] to that link alone, with the time
    of the clock minus the time it was given. *)
Theorem informTime_frame (origin : option StoreLink) (currentTime : optional number)
  (L : StoreLink) (given : number) (this : t) :
  finalStore (informTime origin currentTime this) = this
  /\ thrown (informTime origin currentTime this) = None
  /\ effects (informTime (Some L) Undefined this) = []
  /\ effects (informTime (Some L) Null this) = []
  /\ effects (informTime (Some L) (Present given) this)
     = if onServer this
       then [PublishTo (ActionName "changeTime") (ArgTarget (ToOne L))
               [JsNumber (getCurrentTime (clock this) - given)%num]]
       else [].
Proof.
  unfold informTime, Action_publishTo, bind, get, modify, emit, ret. simpl.
  repeat split; try reflexivity;
    try (destruct origin as [o|]; [|reflexivity];
         destruct currentTime as [| |c]; try reflexivity;
         destruct (onServer this); reflexivity);
    destruct (onServer this); reflexivity.
Qed.

(** X20.  One exchange of clock times.  The client's local [informTime]
    sends the time of its clock to [mainLink]; the server, receiving it
    from link [L], sends [changeTime] to [L] alone with the server's time
    minus the client's; and the client, receiving that, changes its clock by
    exactly this difference and has [informTime] run again later. *)
Theorem clock_times_exchange (client server : t) (L : StoreLink)
  (ignored : optional number) :
  onServer client = false ->
  onServer server = true ->
  effects (informTime None ignored client)
  = [PublishTo (ActionName "informTime") (ArgTarget (ToOne (mainLink (super client))))
       [JsNumber (getCurrentTime (clock client))]]
  /\ effects (informTime (Some L) (Present (getCurrentTime (clock client))) server)
     = [PublishTo (ActionName "changeTime") (ArgTarget (ToOne L))
          [JsNumber (getCurrentTime (clock server) - getCurrentTime (clock client))%num]]
  /\ clock (finalStore
              (changeTime (Some (mainLink (super client)))
                 (getCurrentTime (clock server) - getCurrentTime (clock client))%num
                 client))
     = change (clock client)
         (getCurrentTime (clock server) - getCurrentTime (clock client))%num
         (fin (1 # 2))
  /\ effects (changeTime (Some (mainLink (super client)))
                (getCurrentTime (clock server) - getCurrentTime (clock client))%num
                client)
     = [AfterWait
          (max (ofZ 500)
             ((getCurrentTime (clock server) - getCurrentTime (clock client))
              * ofZ 2)%num)
          CallInformTime].
Proof.
  intros Hclient Hserver.
  unfold informTime, changeTime, Action_publishTo, bind, get, modify, emit, ret, throw.
  simpl. rewrite Hclient, Hserver. repeat split; reflexivity.
Qed.

End TimeExchange.


Lemma clock_times_exchange_witness :
  effects (ConsistentStore.informTime None Undefined Scene.client)
  = [PublishTo (ActionName "informTime")
       (ArgTarget (ToOne (mainLink (ConsistentStore.super Scene.client))))
       [JsNumber (getCurrentTime (ConsistentStore.clock Scene.client))]]
  /\ effects (ConsistentStore.informTime (Some Example.L)
                (Present (getCurrentTime (ConsistentStore.clock Scene.client)))
                Example.server)
     = [PublishTo (ActionName "changeTime") (ArgTarget (ToOne Example.L))
          [JsNumber (getCurrentTime (ConsistentStore.clock Example.server)
                     - getCurrentTime (ConsistentStore.clock Scene.client))%num]]
  /\ ConsistentStore.clock
       (finalStore
          (ConsistentStore.changeTime
             (Some (mainLink (ConsistentStore.super Scene.client)))
             (getCurrentTime (ConsistentStore.clock Example.server)
              - getCurrentTime (ConsistentStore.clock Scene.client))%num
             Scene.client))
     = change (ConsistentStore.clock Scene.client)
         (getCurrentTime (ConsistentStore.clock Example.server)
          - getCurrentTime (ConsistentStore.clock Scene.client))%num
         (fin (1 # 2))
  /\ effects (ConsistentStore.changeTime
                (Some (mainLink (ConsistentStore.super Scene.client)))
                (getCurrentTime (ConsistentStore.clock Example.server)
                 - getCurrentTime (ConsistentStore.clock Scene.client))%num
                Scene.client)
     = [AfterWait
          (max (ofZ 500)
             ((getCurrentTime (ConsistentStore.clock Example.server)
               - getCurrentTime (ConsistentStore.clock Scene.client))
              * ofZ 2)%num)
          CallInformTime].
Proof.
  apply (@clock_times_exchange Plain.plain Scene.client Example.server Example.L
           Undefined); reflexivity.
Defined.

(** ** invert, further *)

Lemma gt_NaN (a : number) : gt NaN a = false.
Proof. destruct a; reflexivity. Qed.


Section InvertFurther.

Context {co : CoConsistent}.

Import ConsistentStore.

Ltac run_invert :=
  unfold invert, Action_publishTo, bind, get, modify, emit, ret; simpl.

(** X21.  The action travels unchanged.  A local [invert] inserts the
    action [{ type: "invert", id }] at its own time and publishes that
    time and id; a store that receives them from link [L] inserts the
    action with the same id at the same state time, and passes the same
    two values on. *)
Theorem invert_inserts_the_same_action (a b : t) (random random' : number)
  (L : StoreLink) (x y : optional number) :
  exists stateTime currentTime',
    effects (invert random None x y a)
    = [PublishTo (ActionName "invert") (ArgTarget ToAll)
         [JsNumber stateTime; JsNumber random]]
    /\ universe (finalStore (invert random None x y a))
       = insert (universe a)
           {| StateAction.type := StateAction.invert; StateAction.id := random |}
           stateTime stateTime None
    /\ universe (finalStore
                   (invert random' (Some L) (Present stateTime) (Present random) b))
       = insert (universe b)
           {| StateAction.type := StateAction.invert; StateAction.id := random |}
           currentTime' stateTime None
    /\ effects (invert random' (Some L) (Present stateTime) (Present random) b)
       = [PublishTo (ActionName "invert") (ArgTarget (ToAllExceptOne L))
            [JsNumber stateTime; JsNumber random]].
Proof.
  exists (getCurrentTime (clock a)).
  destruct a as [baseA serverA uA cA [[smoothA|] [smoothTimeA|]] realA];
    destruct b as [baseB serverB uB cB [[smoothB|] [smoothTimeB|]] realB];
    run_invert;
    destruct (gt (getCurrentTime cA) (getCurrentTime cB));
    eexists; repeat split; reflexivity.
Qed.

(** X22.  [invert] moves the clock in one case only: called from a link
    with a state time ahead of the clock, the server waits and a client
    jumps, by the difference.  A local call and a state time that is not
    ahead (NaN included) leave the clock as it is. *)
Theorem invert_clock (random stateTime id : number) (L : StoreLink)
  (x y : optional number) (this : t) :
  clock (finalStore (invert random None x y this)) = clock this
  /\ clock (finalStore (invert random (Some L) (Present stateTime) (Present id) this))
     = (if gt stateTime (getCurrentTime (clock this))
        then if onServer this
             then wait (clock this) (stateTime - getCurrentTime (clock this))%num
             else jump (clock this) (stateTime - getCurrentTime (clock this))%num
        else clock this)
  /\ clock (finalStore (invert random (Some L) (Present NaN) (Present id) this))
     = clock this.
Proof.
  destruct this as [base server u c [[smooth|] [smoothTime|]] real];
    run_invert;
    (split; [reflexivity|]);
    (split; [destruct (gt stateTime (getCurrentTime c)); reflexivity|]);
    rewrite (gt_NaN (getCurrentTime c)); reflexivity.
Qed.

(** X23.  While [smoothedRef] is not filled, [invert] leaves it as it is,
    for every origin and all parameters. *)
Theorem invert_keeps_empty_smoothedRef (random : number) (origin : option StoreLink)
  (x y : optional number) (this : t) :
  state (smoothedRef this) = None \/ time (smoothedRef this) = None ->
  smoothedRef (finalStore (invert random origin x y this)) = smoothedRef this.
Proof.
  destruct this as [base server u c [[s|] [st|]] real]; run_invert;
    intros [H|H]; try discriminate H;
    (destruct origin as [o|]; [|reflexivity]);
    destruct x as [| |x]; try reflexivity;
    destruct y as [| |y]; try reflexivity;
    destruct (gt x (getCurrentTime c)); reflexivity.
Qed.


End InvertFurther.

Lemma invert_keeps_empty_smoothedRef_witness :
  ConsistentStore.smoothedRef
    (finalStore
       (ConsistentStore.invert (fin (1 # 3)) (Some Example.L) (Present (ofZ 1200))
          (Present (ofZ 7)) Example.server))
  = ConsistentStore.smoothedRef Example.server.
Proof.
  apply (@invert_keeps_empty_smoothedRef Plain.plain (fin (1 # 3)) (Some Example.L)
           (Present (ofZ 1200)) (Present (ofZ 7)) Example.server).
  left. reflexivity.
Defined.


Lemma getCurrentValue_first_read_witness :
  ConsistentStore.getCurrentValue true Example.server
  = ConsistentStore.getCurrentValue false Example.server
  /\ ConsistentStore.smoothedRef
       (finalStore (ConsistentStore.getCurrentValue true Example.server))
     = {| ConsistentStore.state :=
            Some {| SmoothState.value :=
                      ContinousState.value (realStateNow Example.server);
                    SmoothState.velocity :=
                      if ContinousState.directionInverted (realStateNow Example.server)
                      then (- velocity)%num else velocity |};
          ConsistentStore.time :=
            Some (getCurrentTime (ConsistentStore.clock Example.server)) |}.
Proof.
  apply (@getCurrentValue_first_read Plain.plain Example.server). left. reflexivity.
Defined.

Lemma getCurrentValue_of_NaN_or_infinity_witness :
  returned (ConsistentStore.getCurrentValue true Example.serverAfterRead) = Some NaN.
Proof.
  apply (@getCurrentValue_of_NaN_or_infinity Plain.plain true Example.serverAfterRead).
  reflexivity.
Defined.

Lemma getCurrentValue_twice_at_one_time_witness :
  returned (ConsistentStore.getCurrentValue true Scene.clientAfterRead) = Some NaN.
Proof.
  apply (@getCurrentValue_twice_at_one_time Plain.plain Scene.clientAfterRead
           {| SmoothState.value := Finite (1 # 2);
              SmoothState.velocity := Finite (1 # 10000) |}
           900 (1 # 2)); reflexivity.
Defined.

(** ** The value that getCurrentValue returns *)

(** [z % 2] for an integer [z >= 0]. *)
Lemma rem_two (z : Z) :
  (0 <= z)%Z ->
  exists x, (ofZ z %% ofZ 2)%num = Finite x /\ x == inject_Z (z mod 2).
Proof.
  intros Hz. unfold rem, ofZ, fin.
  replace (Qzero (inject_Z 2)) with false by reflexivity.
  eexists; split; [reflexivity|].
  assert (Hnn : 0 <= inject_Z z / inject_Z 2).
  { rewrite Zle_Qle in Hz. change (inject_Z 0) with 0 in Hz.
    unfold Qdiv. change (/ inject_Z 2) with (1 # 2). lra. }
  rewrite (Qtrunc_nonneg Hnn), Qred_correct.
  assert (Hfloor : Qfloor (inject_Z z / inject_Z 2) = (z / 2)%Z).
  { unfold Qfloor, Qdiv, Qmult, Qinv, inject_Z. simpl. now rewrite Z.mul_1_r. }
  rewrite Hfloor. rewrite (Z.mod_eq z 2) by discriminate.
  unfold Zminus. rewrite inject_Z_plus, inject_Z_opp, inject_Z_mult. reflexivity.
Qed.

Lemma Qfloor_nonneg (a : Q) : 0 <= a -> (0 <= Qfloor a)%Z.
Proof.
  intros H. change 0%Z with (Qfloor 0). now apply Qfloor_resp_le.
Qed.

Section TriangleWave.

Context {co : CoConsistent}.

(** X25.  The value that [getCurrentValue] returns for a finite selected
    value [q] is the triangle wave of period 2: with [a = |q|], it is the
    fractional part of [a] where the integer part of [a] is even, and one
    minus the fractional part where it is odd. *)
Theorem getCurrentValue_triangle_wave (smoothed : bool) (this : ConsistentStore.t)
  (q : Q) :
  ConsistentStore.selectedValue smoothed this = Finite q ->
  exists r,
    returned (ConsistentStore.getCurrentValue smoothed this) = Some (Finite r)
    /\ r == (if Z.odd (Qfloor (Qabs q))
             then 1 - (Qabs q - inject_Z (Qfloor (Qabs q)))
             else Qabs q - inject_Z (Qfloor (Qabs q))).
Proof.
  intros Hq. rewrite getCurrentValue_returns, Hq. cbv zeta.
  destruct (abs_finite q) as (a & Habs & Ha).
  assert (Haq : a == Qabs q).
  { injection Habs as <-. apply Qred_correct. }
  assert (Hfl : Qfloor (Qabs q) = Qfloor a)
    by (apply Qfloor_comp; symmetry; exact Haq).
  rewrite Habs, Hfl.
  replace (floor (Finite a)) with (ofZ (Qfloor a)) by reflexivity.
  destruct (rem_two (Qfloor_nonneg Ha)) as (x & -> & Hx).
  destruct (rem_one_nonneg Ha) as (f & -> & Hf & Hfa).
  assert (Hodd : strictEq (Finite x) (ofZ 1) = Z.odd (Qfloor a)).
  { rewrite Zmod_odd in Hx. destruct (Z.odd (Qfloor a)).
    - apply strictEq_Finite. exact Hx.
    - destruct (strictEq (Finite x) (ofZ 1)) eqn:E; [|reflexivity].
      apply strictEq_Finite in E. rewrite Hx in E. discriminate E. }
  rewrite Hodd. destruct (Z.odd (Qfloor a)).
  - unfold ofZ. rewrite sub_Finite. eexists. split; [reflexivity|].
    rewrite !Qred_correct, Hfa, <- Haq. change (inject_Z 1) with 1. ring.
  - exists f. split; [reflexivity|]. rewrite Hfa, <- Haq. reflexivity.
Qed.

End TriangleWave.

Lemma getCurrentValue_triangle_wave_witness :
  exists r,
    returned (ConsistentStore.getCurrentValue true Example.server) = Some (Finite r)
    /\ r == (if Z.odd (Qfloor (Qabs (1 # 2)))
             then 1 - (Qabs (1 # 2) - inject_Z (Qfloor (Qabs (1 # 2))))
             else Qabs (1 # 2) - inject_Z (Qfloor (Qabs (1 # 2)))).
Proof.
  apply (@getCurrentValue_triangle_wave Plain.plain true Example.server (1 # 2)).
  reflexivity.
Defined.

(** ** The messages on the links *)


Example exchanged_invert_from_link :
  exchanged (linkSet Example.store)
    (effects (ConsistentStore.invert (fin (1 # 3)) (Some Example.L)
                (Present (ofZ 1200)) (Present (ofZ 7)) Example.server))
  = [(2%nat, [JsString "invert"; JsNumber (ofZ 1200); JsNumber (ofZ 7)])].
Proof. reflexivity. Qed.

Section MessagesOnTheLinks.

Context {co : CoConsistent}.

Import ConsistentStore.


End MessagesOnTheLinks.
